(** * OpenCorporates agent: lookup and aggregation

    A shallow embedding of [opencorporates-agent.py] (class
    [OpenCorporatesAgent]) and of the [/api/search] handler of
    [webapp-integration.py].

    The Python code is dynamically typed: what comes back from
    [response.json()] is an arbitrary JSON value, method calls on a value of
    the wrong type raise, and [try]/[except] clauses catch some exception
    classes and let others through.  The embedding keeps all of it: Python
    values are an inductive type, computations live in a state-and-exception
    monad whose state records the HTTP requests sent so far and the lines
    printed, and the registry is an arbitrary function from a request, and
    the number of requests sent before it, to an answer. *)

From Stdlib Require Import String Ascii ZArith List Bool Lia DecimalString.
Import ListNotations.
Local Open Scope list_scope.
Local Open Scope string_scope.
Set Warnings "-register-all".

(** ** Python values *)

(** A Python [float]; the code only ever tests it for truth. *)
Inductive pyfloat : Type :=
| FFinite (mantissa exponent : Z)
| FInf (negative : bool)
| FNaN.

(** The values [json.loads] produces, which are also the values the agent
    builds.  A [str] is the sequence of its characters, one [ascii] per
    character (text in the Latin-1 range); a [dict] keeps its items in
    insertion order, and all keys are strings. *)
Inductive value : Type :=
| VNone
| VBool (b : bool)
| VInt (z : Z)
| VFloat (f : pyfloat)
| VStr (s : string)
| VList (l : list value)
| VDict (d : list (string * value)).

Definition dict : Type := list (string * value).

(** [type(v).__name__] *)
Definition type_name (v : value) : string :=
  match v with
  | VNone => "NoneType"
  | VBool _ => "bool"
  | VInt _ => "int"
  | VFloat _ => "float"
  | VStr _ => "str"
  | VList _ => "list"
  | VDict _ => "dict"
  end.

(** [bool(v)] *)
Definition truthy (v : value) : bool :=
  match v with
  | VNone => false
  | VBool b => b
  | VInt z => negb (z =? 0)%Z
  | VFloat (FFinite m _) => negb (m =? 0)%Z
  | VFloat _ => true
  | VStr s => negb (s =? "")
  | VList l => match l with [] => false | _ :: _ => true end
  | VDict d => match d with [] => false | _ :: _ => true end
  end.

(** [d.get(k)] on the items of a dict: [None] when the key is absent. *)
Fixpoint dict_get (d : dict) (k : string) : option value :=
  match d with
  | [] => None
  | (k', v) :: d' => if k' =? k then Some v else dict_get d' k
  end.

(** [d[k] = v]: overwrite in place, or add at the end. *)
Fixpoint dict_set (d : dict) (k : string) (v : value) : dict :=
  match d with
  | [] => [(k, v)]
  | (k', v') :: d' => if k' =? k then (k, v) :: d' else (k', v') :: dict_set d' k v
  end.

(** [k in d] *)
Definition dict_mem (d : dict) (k : string) : bool :=
  match dict_get d k with Some _ => true | None => false end.

(** [needle in s] for two strings. *)
Definition str_contains (s needle : string) : bool :=
  match String.index 0 needle s with Some _ => true | None => false end.

(** [c.lower()] for one character: A-Z and the Latin-1 capitals. *)
Definition lower_char (c : ascii) : ascii :=
  let n := nat_of_ascii c in
  if (((65 <=? n) && (n <=? 90)) || ((192 <=? n) && (n <=? 222) && negb (n =? 215)))%nat
  then ascii_of_nat (n + 32) else c.

(** [s.lower()] *)
Fixpoint lower (s : string) : string :=
  match s with
  | EmptyString => EmptyString
  | String c s' => String (lower_char c) (lower s')
  end.

(** The one-character strings a [for] loop over a [str] yields. *)
Fixpoint chars (s : string) : list value :=
  match s with
  | EmptyString => []
  | String c s' => VStr (String c EmptyString) :: chars s'
  end.

(** Decimal text of an [int], as an f-string prints it. *)
Definition str_of_Z (z : Z) : string := NilZero.string_of_int (Z.to_int z).
Definition str_of_nat (n : nat) : string := NilZero.string_of_uint (Nat.to_uint n).

(** ** The HTTP library *)

Record Request : Type := mkRequest {
  req_url : string;
  req_params : dict
}.

(** The exceptions that come out of the HTTP library and are no
    [RequestException]: a [RecursionError] from decoding a deeply nested
    body, a [ValueError] from decoding an integer of too many digits, a
    [UnicodeEncodeError] from preparing a parameter that cannot be
    encoded. *)
Inductive library_error : Type :=
| RecursionError (msg : string)
| ValueError (msg : string)
| UnicodeEncodeError (msg : string).

(** How [response.json()] can end without a value: the body is not JSON,
    which raises [requests.exceptions.JSONDecodeError] with a message, or
    the decoder itself gives up on a body that is JSON. *)
Inductive json_failure : Type :=
| JSONDecodeError (msg : string)
| DecoderRaised (e : library_error).

(** A [requests.Response]: [json_body] is [inl v] when [response.json()]
    returns [v], [inr f] when it ends with failure [f]. *)
Record Response : Type := mkResponse {
  status_code : Z;
  reason : string;
  resp_url : string;
  text : string;
  json_body : value + json_failure
}.

(** What one [requests.get] does: it raises a [RequestException]
    (connection error, timeout, too many redirects, ...), which may carry a
    response; it raises an exception of another class before anything
    is answered; or it returns a response. *)
Inductive Transport : Type :=
| RequestFailed (msg : string) (response : option Response)
| Crashed (e : library_error)
| Responded (r : Response).

(** ** Exceptions and the computation monad *)

Inductive exn : Type :=
| RequestException (msg : string) (response : option Response)
| AttributeError (msg : string)
| TypeError (msg : string)
| KeyError (msg : string)
| LibraryError (e : library_error).

(** [str(e)] *)
Definition exn_str (e : exn) : string :=
  match e with
  | RequestException msg _ => msg
  | AttributeError msg => msg
  | TypeError msg => msg
  | KeyError msg => msg
  | LibraryError (RecursionError msg) => msg
  | LibraryError (ValueError msg) => msg
  | LibraryError (UnicodeEncodeError msg) => msg
  end.

Definition is_RequestException (e : exn) : bool :=
  match e with RequestException _ _ => true | _ => false end.

Definition is_KeyError_or_AttributeError (e : exn) : bool :=
  match e with KeyError _ | AttributeError _ => true | _ => false end.

(** Every exception of the model is an [Exception]. *)
Definition is_Exception (e : exn) : bool := true.

(** The observable state of a run: the requests sent so far (those handed
    to [requests.get]), oldest first, and the lines printed so far, oldest
    first. *)
Record World : Type := mkWorld {
  sent : list Request;
  stdout : list string
}.

Inductive Outcome (A : Type) : Type :=
| Ok (a : A)
| Raise (e : exn).
Arguments Ok {A} a.
Arguments Raise {A} e.

Definition M (A : Type) : Type := World -> Outcome A * World.

Definition ret {A} (a : A) : M A := fun w => (Ok a, w).

Definition raise {A} (e : exn) : M A := fun w => (Raise e, w).

Definition bind {A B} (m : M A) (k : A -> M B) : M B :=
  fun w =>
    match m w with
    | (Ok a, w') => k a w'
    | (Raise e, w') => (Raise e, w')
    end.

(** [try: body / except <classes> as e: handler e] *)
Definition try_except {A} (body : M A) (classes : exn -> bool) (handler : exn -> M A) : M A :=
  fun w =>
    match body w with
    | (Ok a, w') => (Ok a, w')
    | (Raise e, w') => if classes e then handler e w' else (Raise e, w')
    end.

(** [print(line)]; standard output is taken to accept every line. *)
Definition print (line : string) : M unit :=
  fun w => (Ok tt, mkWorld (sent w) (stdout w ++ [line])).

Declare Scope py_scope.
Delimit Scope py_scope with py.
Notation "x <- m ;; k" := (bind m (fun x => k))
  (at level 61, m at next level, right associativity) : py_scope.
Notation "m ;; k" := (bind m (fun _ => k))
  (at level 61, right associativity) : py_scope.
Local Open Scope py_scope.

(** ** Operations on values that can raise *)

(** [v.get(key, default)]: only a dict has the method. *)
Definition py_get (v : value) (key : string) (default : value) : M value :=
  match v with
  | VDict d => ret (match dict_get d key with Some x => x | None => default end)
  | _ => raise (AttributeError ("'" ++ type_name v ++ "' object has no attribute 'get'"))
  end.

(** [v.lower()]: only a str has the method. *)
Definition py_lower (v : value) : M string :=
  match v with
  | VStr s => ret (lower s)
  | _ => raise (AttributeError ("'" ++ type_name v ++ "' object has no attribute 'lower'"))
  end.

(** [needle in v] for a string [needle]: key membership in a dict, element
    membership in a list, substring test in a str; other values are not
    containers. *)
Definition py_in (needle : string) (v : value) : M bool :=
  match v with
  | VDict d => ret (dict_mem d needle)
  | VList l => ret (existsb (fun x => match x with VStr s => s =? needle | _ => false end) l)
  | VStr s => ret (str_contains s needle)
  | _ => raise (TypeError ("argument of type '" ++ type_name v ++ "' is not iterable"))
  end.

(** The items [for x in v[:3]] runs over: a list and a str can be sliced
    and iterated, a dict takes no slice as a key (a [TypeError] up to
    Python 3.11, a [KeyError] from 3.12 on; nothing here tells them apart),
    other values have no subscript. *)
Definition py_first3 (v : value) : M (list value) :=
  match v with
  | VList l => ret (firstn 3 l)
  | VStr s => ret (firstn 3 (chars s))
  | VDict _ => raise (TypeError "unhashable type: 'slice'")
  | _ => raise (TypeError ("'" ++ type_name v ++ "' object is not subscriptable"))
  end.

(** The jurisdiction block that opens [find_company_controllers]: the
    hint's lower-case form is looked up in a table of four entries; no hint
    ([None], or an empty string) and an unknown hint both give [None]. *)
Definition state_codes : dict :=
  [("california", VStr "us_ca");
   ("ca", VStr "us_ca");
   ("illinois", VStr "us_il");
   ("il", VStr "us_il")].

Definition jurisdiction_code_of (jurisdiction_hint : value) : M value :=
  if truthy jurisdiction_hint then
    key <- py_lower jurisdiction_hint ;;
    ret (match dict_get state_codes key with Some code => code | None => VNone end)
  else ret VNone.

(** ** The run-time environment *)

(** [upstream n rq] is what the registry does with request [rq] when [n]
    requests were sent before it.  [py_repr] is Python's [repr] on the values
    above; the agent uses it only to format values that are not strings. *)
Record Runtime : Type := mkRuntime {
  upstream : nat -> Request -> Transport;
  py_repr : value -> string
}.

(** ** class OpenCorporatesAgent *)

(** The attributes of an instance; [api_token] is a str or [None]. *)
Record OpenCorporatesAgent : Type := mkAgent {
  base_url : string;
  api_token : value
}.

Section Agent.

Context (rt : Runtime).

(** [str(v)], which is what an f-string does with [{v}]. *)
Definition py_str (v : value) : string :=
  match v with
  | VStr s => s
  | _ => py_repr rt v
  end.

(** [requests.get(url, params=params)] *)
Definition requests_get (url : string) (params : dict) : M Response :=
  fun w =>
    let rq := mkRequest url params in
    let w' := mkWorld (sent w ++ [rq]) (stdout w) in
    match upstream rt (length (sent w)) rq with
    | RequestFailed msg r => (Raise (RequestException msg r), w')
    | Crashed e => (Raise (LibraryError e), w')
    | Responded r => (Ok r, w')
    end.

(** [response.raise_for_status()]: an [HTTPError], which is a
    [RequestException], for a 4xx or 5xx status. *)
Definition raise_for_status (r : Response) : M unit :=
  let describe kind :=
    str_of_Z (status_code r) ++ kind ++ reason r ++ " for url: " ++ resp_url r in
  if ((400 <=? status_code r) && (status_code r <? 500))%Z
  then raise (RequestException (describe " Client Error: ") (Some r))
  else if ((500 <=? status_code r) && (status_code r <? 600))%Z
  then raise (RequestException (describe " Server Error: ") (Some r))
  else ret tt.

(** [response.json()]: a body that is not JSON raises
    [requests.exceptions.JSONDecodeError], which is a [RequestException]
    (requests 2.27 and later) without a response attached; what the decoder
    raises on a body it gives up on is no [RequestException]. *)
Definition response_json (r : Response) : M value :=
  match json_body r with
  | inl v => ret v
  | inr (JSONDecodeError msg) => raise (RequestException msg None)
  | inr (DecoderRaised e) => raise (LibraryError e)
  end.

(** [__init__]: the token argument, else the environment's. *)
Definition __init__ (token env_token : value) : M OpenCorporatesAgent :=
  let tok := if truthy token then token else env_token in
  (if truthy tok then ret tt
   else print "Warning: No API token provided. Some functions may be limited.") ;;
  ret (mkAgent "https://api.opencorporates.com/v0.4" tok).

Context (self : OpenCorporatesAgent).

Definition _make_request (endpoint : string) (params : option dict) : M value :=
  let params := match params with None => [] | Some p => p end in
  let params :=
    if truthy (api_token self) then dict_set params "api_token" (api_token self) else params in
  let url := base_url self ++ "/" ++ endpoint in
  try_except
    (response <- requests_get url params ;;
     raise_for_status response ;;
     response_json response)
    is_RequestException
    (fun e =>
       print ("Error making request: " ++ exn_str e) ;;
       match e with
       | RequestException _ (Some r) => print ("Response content: " ++ text r)
       | _ => ret tt
       end ;;
       ret (VDict [("error", VStr (exn_str e))])).

(** The query parameters [search_companies] builds. *)
Definition search_params (query jurisdiction_code : value) : dict :=
  let params := [("q", query)] in
  if truthy jurisdiction_code
  then dict_set params "jurisdiction_code" jurisdiction_code
  else params.

Definition search_companies (query jurisdiction_code : value) : M value :=
  response <- _make_request "companies/search" (Some (search_params query jurisdiction_code)) ;;
  has_error <- py_in "error" response ;;
  if has_error then ret (VList [])
  else
    try_except
      (results <- py_get response "results" (VDict []) ;;
       py_get results "companies" (VList []))
      is_KeyError_or_AttributeError
      (fun _ => ret (VList [])).

Definition get_company_details (jurisdiction_code company_number : value) : M value :=
  let endpoint := "companies/" ++ py_str jurisdiction_code ++ "/" ++ py_str company_number in
  response <- _make_request endpoint None ;;
  has_error <- py_in "error" response ;;
  if has_error then ret (VDict [])
  else
    try_except
      (results <- py_get response "results" (VDict []) ;;
       py_get results "company" (VDict []))
      is_KeyError_or_AttributeError
      (fun _ => ret (VDict [])).

Definition get_company_officers (jurisdiction_code company_number : value) : M value :=
  let endpoint :=
    "companies/" ++ py_str jurisdiction_code ++ "/" ++ py_str company_number ++ "/officers" in
  response <- _make_request endpoint None ;;
  has_error <- py_in "error" response ;;
  if has_error then ret (VList [])
  else
    try_except
      (results <- py_get response "results" (VDict []) ;;
       py_get results "officers" (VList []))
      is_KeyError_or_AttributeError
      (fun _ => ret (VList [])).

(** The [try] block of the loop of [find_company_controllers], for one
    search hit; it returns [results] as the block leaves it. *)
Definition candidate_body (company_data : value) (results : list value) : M (list value) :=
  company <- py_get company_data "company" (VDict []) ;;
  jurisdiction <- py_get company "jurisdiction_code" VNone ;;
  company_number <- py_get company "company_number" VNone ;;
  if truthy jurisdiction && truthy company_number then
    officers <- get_company_officers jurisdiction company_number ;;
    name <- py_get company "name" VNone ;;
    incorporation_date <- py_get company "incorporation_date" VNone ;;
    company_type <- py_get company "company_type" VNone ;;
    current_status <- py_get company "current_status" VNone ;;
    ret (results ++ [VDict [("company_name", name);
                            ("jurisdiction", jurisdiction);
                            ("company_number", company_number);
                            ("incorporation_date", incorporation_date);
                            ("company_type", company_type);
                            ("current_status", current_status);
                            ("officers", officers)]])%list
  else ret results.

(** One iteration: the block under [try], and [except Exception]. *)
Definition process_candidate (company_data : value) (results : list value) : M (list value) :=
  try_except
    (candidate_body company_data results)
    is_Exception
    (fun e => print ("Error processing company: " ++ exn_str e) ;; ret results).

(** The [for] loop. *)
Fixpoint for_each_candidate (candidates : list value) (results : list value) : M (list value) :=
  match candidates with
  | [] => ret results
  | company_data :: rest =>
      results' <- process_candidate company_data results ;;
      for_each_candidate rest results'
  end.

Definition find_company_controllers (company_name jurisdiction_hint : value) : M value :=
  jurisdiction_code <- jurisdiction_code_of jurisdiction_hint ;;
  companies <- search_companies company_name jurisdiction_code ;;
  if negb (truthy companies) then
    ret (VDict [("status", VStr "not_found");
                ("message", VStr ("No companies found matching '" ++ py_str company_name ++ "'"));
                ("results", VList [])])
  else
    top <- py_first3 companies ;;
    results <- for_each_candidate top [] ;;
    ret (VDict [("status", VStr (if truthy (VList results) then "success" else "partial_results"));
                ("message", VStr ("Found " ++ str_of_nat (length results)
                                  ++ " potential matches for '" ++ py_str company_name ++ "'"));
                ("results", VList results)]).

End Agent.

(** ** The web application: POST /api/search *)

(** What a Flask view returns: a JSON body and a status code. *)
Record Reply : Type := mkReply {
  reply_body : value;
  reply_status : Z
}.

(** [search_company], given the agent of the module and [request.json]. *)
Definition search_company (rt : Runtime) (agent : OpenCorporatesAgent) (data : value) : M Reply :=
  company_name <- py_get data "company_name" VNone ;;
  jurisdiction <- py_get data "jurisdiction" VNone ;;
  if negb (truthy company_name) then
    ret (mkReply (VDict [("error", VStr "Company name is required")]) 400)
  else
    result <- find_company_controllers rt agent company_name jurisdiction ;;
    ret (mkReply result 200).

(** ** Reading a lookup result *)

Definition status_of (r : value) : option value :=
  match r with VDict d => dict_get d "status" | _ => None end.

Definition message_of (r : value) : option value :=
  match r with VDict d => dict_get d "message" | _ => None end.

Definition results_of (r : value) : option value :=
  match r with VDict d => dict_get d "results" | _ => None end.

(** ** What the specification talks about *)

(** The request [_make_request] hands to [requests.get]. *)
Definition request_of (self : OpenCorporatesAgent) (endpoint : string) (params : option dict)
  : Request :=
  let params := match params with None => [] | Some p => p end in
  mkRequest (base_url self ++ "/" ++ endpoint)
    (if truthy (api_token self) then dict_set params "api_token" (api_token self) else params).

(** A 4xx or 5xx status. *)
Definition http_error (r : Response) : bool :=
  ((400 <=? status_code r) && (status_code r <? 600))%Z.

(** The upstream failures: no response, an error status, a body that is
    not JSON. *)
Definition transport_failed (t : Transport) : bool :=
  match t with
  | RequestFailed _ _ => true
  | Crashed _ => false
  | Responded r =>
      http_error r
      || match json_body r with inr (JSONDecodeError _) => true | _ => false end
  end.

(** The exception of the HTTP library that [_make_request] lets through,
    if the answer is one: from [requests.get], or from [response.json()]
    on a response without an error status. *)
Definition escapes (t : Transport) : option library_error :=
  match t with
  | RequestFailed _ _ => None
  | Crashed e => Some e
  | Responded r =>
      if http_error r then None
      else match json_body r with inr (DecoderRaised e) => Some e | _ => None end
  end.

(** The shape [_make_request] gives to a failure. *)
Definition error_result (v : value) : Prop :=
  exists msg, v = VDict [("error", VStr msg)].

(** What the three lookups do with the value [_make_request] returned:
    [response["results"][field]], with [empty] for an error dictionary and
    for a body of another shape. *)
Definition results_field (field : string) (empty : value) (response : value) : M value :=
  has_error <- py_in "error" response ;;
  if has_error then ret empty
  else
    try_except
      (results <- py_get response "results" (VDict []) ;;
       py_get results field empty)
      is_KeyError_or_AttributeError
      (fun _ => ret empty).

(** The endpoint of the officers of a company. *)
Definition officers_endpoint (rt : Runtime) (jurisdiction_code company_number : value) : string :=
  "companies/" ++ py_str rt jurisdiction_code ++ "/" ++ py_str rt company_number ++ "/officers".

(** The company record of a search hit, when the hit is a dict and the
    record is a dict (or absent, which reads as an empty record). *)
Definition candidate_company (company_data : value) : option dict :=
  match company_data with
  | VDict d =>
      match dict_get d "company" with
      | Some (VDict c) => Some c
      | Some _ => None
      | None => Some []
      end
  | _ => None
  end.

(** [company.get(k)] *)
Definition field_of (company : dict) (k : string) : value :=
  match dict_get company k with Some v => v | None => VNone end.

(** Both identifying fields are present (and not empty). *)
Definition identified (company : dict) : bool :=
  truthy (field_of company "jurisdiction_code") && truthy (field_of company "company_number").

(** The entry appended for a company and its officers. *)
Definition entry_of (company : dict) (officers : value) : value :=
  VDict [("company_name", field_of company "name");
         ("jurisdiction", field_of company "jurisdiction_code");
         ("company_number", field_of company "company_number");
         ("incorporation_date", field_of company "incorporation_date");
         ("company_type", field_of company "company_type");
         ("current_status", field_of company "current_status");
         ("officers", officers)].

(** An entry of [results] with its jurisdiction code and company number. *)
Definition entry_identified (entry : value) : Prop :=
  exists d j n,
    entry = VDict d /\
    dict_get d "jurisdiction" = Some j /\ truthy j = true /\
    dict_get d "company_number" = Some n /\ truthy n = true.

(** An entry of [results] whose jurisdiction code and company number are
    not [None]. *)
Definition entry_complete (entry : value) : Prop :=
  exists d j n,
    entry = VDict d /\
    dict_get d "jurisdiction" = Some j /\ j <> VNone /\
    dict_get d "company_number" = Some n /\ n <> VNone.

(** The code the jurisdiction block computes; the block is pure. *)
Definition resolve (jurisdiction_hint : value) : Outcome value :=
  fst (jurisdiction_code_of jurisdiction_hint (mkWorld [] [])).

(** The hits the search step returned, as the loop would see them. *)
Definition candidates_of (companies : value) : list value :=
  match companies with
  | VList l => l
  | VStr s => chars s
  | _ => []
  end.

(** The two result values of [find_company_controllers]. *)
Definition not_found_result (rt : Runtime) (company_name : value) : value :=
  VDict [("status", VStr "not_found");
         ("message", VStr ("No companies found matching '" ++ py_str rt company_name ++ "'"));
         ("results", VList [])].

Definition found_result (rt : Runtime) (company_name : value) (results : list value) : value :=
  VDict [("status", VStr (match results with [] => "partial_results" | _ :: _ => "success" end));
         ("message", VStr ("Found " ++ str_of_nat (length results)
                           ++ " potential matches for '" ++ py_str rt company_name ++ "'"));
         ("results", VList results)].

(** ** Sample registries *)

Definition demo_repr (v : value) : string :=
  match v with
  | VNone => "None"
  | VBool true => "True"
  | VBool false => "False"
  | VInt z => str_of_Z z
  | _ => "<" ++ type_name v ++ ">"
  end.

Definition ok_response (body : value) : Response :=
  mkResponse 200 "OK" "" "" (inl body).

Definition not_found_response : Response :=
  mkResponse 404 "Not Found" "" "{}" (inl (VDict [])).

Definition hit (name jurisdiction number : value) : value :=
  VDict [("company", VDict [("name", name);
                            ("jurisdiction_code", jurisdiction);
                            ("company_number", number)])].

(** Five hits: a complete one, one without a number, one whose company
    record is [null], and two more complete ones. *)
Definition five_hits : list value :=
  [hit (VStr "ACME INC") (VStr "us_ca") (VStr "C1");
   hit (VStr "ACME LLC") (VStr "us_ca") VNone;
   VDict [("company", VNone)];
   hit (VStr "ACME CORP") (VStr "us_il") (VStr "C4");
   hit (VStr "ACME LTD") (VStr "gb") (VStr "C5")].

Definition search_response (hits : list value) : Response :=
  ok_response (VDict [("results", VDict [("companies", VList hits)])]).

(** The search answers with [hits]; every later request gets a 404. *)
Definition registry_without_officers (hits : list value) : Runtime :=
  mkRuntime
    (fun n _ => match n with
                | O => Responded (search_response hits)
                | S _ => Responded not_found_response
                end)
    demo_repr.

(** A registry that cannot be reached. *)
Definition registry_down : Runtime :=
  mkRuntime (fun _ _ => RequestFailed "Connection refused" None) demo_repr.

Definition demo_agent : OpenCorporatesAgent :=
  mkAgent "https://api.opencorporates.com/v0.4" (VStr "secret").

Definition fresh_world : World := mkWorld [] [].

(** Five complete hits. *)
Definition complete_hits : list value :=
  [hit (VStr "ACME INC") (VStr "us_ca") (VStr "C1");
   hit (VStr "ACME LLC") (VStr "us_ca") (VStr "C2");
   hit (VStr "ACME CO") (VStr "us_il") (VStr "C3");
   hit (VStr "ACME CORP") (VStr "us_il") (VStr "C4");
   hit (VStr "ACME LTD") (VStr "gb") (VStr "C5")].

(** Three hits, none with both fields. *)
Definition anonymous_hits : list value :=
  [hit (VStr "ACME INC") VNone (VStr "C1");
   hit (VStr "ACME LLC") (VStr "us_ca") VNone;
   VDict []].

(** The runs the examples below refer to. *)
Definition mixed_run : Outcome value * World :=
  Eval vm_compute in
    find_company_controllers (registry_without_officers five_hits) demo_agent
      (VStr "ACME") (VStr "CA") fresh_world.

Definition complete_run : Outcome value * World :=
  Eval vm_compute in
    find_company_controllers (registry_without_officers complete_hits) demo_agent
      (VStr "ACME") VNone fresh_world.

Definition anonymous_run : Outcome value * World :=
  Eval vm_compute in
    find_company_controllers (registry_without_officers anonymous_hits) demo_agent
      (VStr "ACME") VNone fresh_world.

(** What a run returned ([None] stands in when it raised). *)
Definition returned (run : Outcome value * World) : value :=
  match fst run with Ok r => r | Raise _ => VNone end.

(** The world after the search request of the examples was answered. *)
Definition searched_world : World :=
  Eval vm_compute in
    snd (search_companies (registry_without_officers five_hits) demo_agent
           (VStr "ACME") (VStr "us_ca") fresh_world).

(** A hit whose company record is [null]. *)
Definition broken_hit : value := VDict [("company", VNone)].

Definition first_hit : value := hit (VStr "ACME INC") (VStr "us_ca") (VStr "C1").

Definition first_company : dict :=
  [("name", VStr "ACME INC"); ("jurisdiction_code", VStr "us_ca"); ("company_number", VStr "C1")].

(** A registry whose search finds nothing. *)
Definition empty_registry : Runtime := registry_without_officers [].

Definition empty_run : Outcome value * World :=
  Eval vm_compute in
    find_company_controllers empty_registry demo_agent (VStr "X") VNone fresh_world.

(** A registry that answers every request with the bare number 5. *)
Definition registry_of_numbers : Runtime :=
  mkRuntime (fun _ _ => Responded (ok_response (VInt 5))) demo_repr.

(** ** The rest of the web application: GET /api/company_details *)

Module Webapp.

(** [request.args.get(k)]: the first value given for [k], a str, or
    [None]. *)
Fixpoint args_get (args : list (string * string)) (k : string) : value :=
  match args with
  | [] => VNone
  | (k', v) :: args' => if k' =? k then VStr v else args_get args' k
  end.

(** [get_company_details], given the agent of the module and
    [request.args]. *)
Definition get_company_details (rt : Runtime) (agent : OpenCorporatesAgent)
    (args : list (string * string)) : M Reply :=
  let jurisdiction := args_get args "jurisdiction" in
  let company_number := args_get args "company_number" in
  if negb (truthy jurisdiction) || negb (truthy company_number) then
    ret (mkReply (VDict [("error", VStr "Jurisdiction and company number are required")]) 400)
  else
    company <- get_company_details rt agent jurisdiction company_number ;;
    officers <- get_company_officers rt agent jurisdiction company_number ;;
    ret (mkReply (VDict [("company", company); ("officers", officers)]) 200).

End Webapp.

(** ** More vocabulary *)

(** [body["results"][field]] when the body is that deep. *)
Definition results_path (body : dict) (field : string) : option value :=
  match dict_get body "results" with
  | Some (VDict results) => dict_get results field
  | _ => None
  end.

(** The endpoint of the details of a company. *)
Definition details_endpoint (rt : Runtime) (jurisdiction_code company_number : value) : string :=
  "companies/" ++ py_str rt jurisdiction_code ++ "/" ++ py_str rt company_number.

(** The hits for which the loop asks for officers. *)
Definition wants_officers (company_data : value) : bool :=
  match candidate_company company_data with
  | Some company => identified company
  | None => false
  end.

(** [picked] is [all] with some items left out, order kept. *)
Inductive subseq {A : Type} : list A -> list A -> Prop :=
| subseq_nil : subseq [] []
| subseq_skip x picked all : subseq picked all -> subseq picked (x :: all)
| subseq_take x picked all : subseq picked all -> subseq (x :: picked) (x :: all).

(** Entry [entry] was built from hit [company_data]. *)
Definition entry_from (company_data entry : value) : Prop :=
  exists company officers,
    candidate_company company_data = Some company /\
    identified company = true /\
    entry = entry_of company officers.

(** The HTTP library raises nothing but a [RequestException], every body
    the registry sends that decodes is a JSON object, and the [companies]
    it lists, if any, are a list. *)
Definition answers_with_objects (rt : Runtime) : Prop :=
  (forall n rq, escapes (upstream rt n rq) = None) /\
  (forall n rq r v,
     upstream rt n rq = Responded r ->
     json_body r = inl v ->
     exists d,
       v = VDict d /\
       forall companies, results_path d "companies" = Some companies ->
                         exists hits, companies = VList hits).

(** The request for the officers of hit [company_data]. *)
Definition officers_request (rt : Runtime) (self : OpenCorporatesAgent) (company_data : value)
  : Request :=
  match candidate_company company_data with
  | Some company =>
      request_of self
        (officers_endpoint rt (field_of company "jurisdiction_code")
           (field_of company "company_number")) None
  | None => request_of self "" None
  end.

(** The search request of a lookup. *)
Definition search_request (self : OpenCorporatesAgent) (query jurisdiction_code : value)
  : Request :=
  request_of self "companies/search" (Some (search_params query jurisdiction_code)).

(** What a lookup makes of a decoded body: of an object, the field under
    [results] (the empty value when the object has an ["error"] key or is
    not that deep); of a list or a str, the empty value; any other body
    has no [in], and the lookup raises. *)
Definition read_body (field : string) (empty : value) (body : value) : Outcome value :=
  match body with
  | VDict d =>
      Ok (if dict_mem d "error" then empty
          else match results_path d field with Some x => x | None => empty end)
  | VList _ | VStr _ => Ok empty
  | _ => Raise (TypeError ("argument of type '" ++ type_name body ++ "' is not iterable"))
  end.

(** What a lookup makes of the answer to its request. *)
Definition read_answer (field : string) (empty : value) (t : Transport) : Outcome value :=
  match t with
  | RequestFailed _ _ => Ok empty
  | Crashed e => Raise (LibraryError e)
  | Responded r =>
      if http_error r then Ok empty
      else match json_body r with
           | inl body => read_body field empty body
           | inr (JSONDecodeError _) => Ok empty
           | inr (DecoderRaised e) => Raise (LibraryError e)
           end
  end.

(** The officers the loop gets for hit [company_data] when its request is
    the one of index [n]; [None] when the lookup of the officers raises. *)
Definition officers_for (rt : Runtime) (self : OpenCorporatesAgent) (n : nat)
    (company_data : value) : option value :=
  match read_answer "officers" (VList []) (upstream rt n (officers_request rt self company_data))
  with
  | Ok officers => Some officers
  | Raise _ => None
  end.

(** The entries the hits give, read off the hits and the registry's
    answers alone, when the next request has index [n]: a hit with a
    company record and both fields uses up one request, and gives an entry
    when the lookup of its officers returns; any other hit gives nothing. *)
Fixpoint expected_results (rt : Runtime) (self : OpenCorporatesAgent) (n : nat)
    (hits : list value) : list value :=
  match hits with
  | [] => []
  | company_data :: rest =>
      match candidate_company company_data with
      | Some company =>
          if identified company then
            match officers_for rt self n company_data with
            | Some officers => entry_of company officers :: expected_results rt self (S n) rest
            | None => expected_results rt self (S n) rest
            end
          else expected_results rt self n rest
      | None => expected_results rt self n rest
      end
  end.

(** Hit [k] of [hits] is resolved: it has a company record with a
    jurisdiction code and a company number, and the lookup of its officers
    returns.  Its request comes after those of the earlier hits with both
    fields. *)
Definition resolved (rt : Runtime) (self : OpenCorporatesAgent) (n : nat) (hits : list value)
    (k : nat) : Prop :=
  exists company_data company officers,
    nth_error hits k = Some company_data /\
    candidate_company company_data = Some company /\
    identified company = true /\
    officers_for rt self (n + length (filter wants_officers (firstn k hits))) company_data
    = Some officers.

(** Four hits: three without both fields, then a complete one. *)
Definition late_hits : list value :=
  [hit (VStr "ACME INC") VNone (VStr "C1");
   hit (VStr "ACME LLC") (VStr "us_ca") VNone;
   VDict [];
   hit (VStr "ACME CORP") (VStr "us_il") (VStr "C4")].

(** ** More sample registries *)

Definition sample_company : value :=
  VDict [("name", VStr "ACME INC"); ("jurisdiction_code", VStr "us_ca");
         ("company_number", VStr "C1")].

Definition sample_officers : value :=
  VList [VDict [("officer", VDict [("name", VStr "J. DOE"); ("position", VStr "director")])]].

(** The first request gets the record of a company, every later one its
    officers. *)
Definition details_registry : Runtime :=
  mkRuntime
    (fun n _ => match n with
                | O => Responded (ok_response (VDict [("results", VDict [("company", sample_company)])]))
                | S _ => Responded (ok_response (VDict [("results", VDict [("officers", sample_officers)])]))
                end)
    demo_repr.

(** The search answers with [hits], every later request with officers. *)
Definition registry_with_officers (hits : list value) : Runtime :=
  mkRuntime
    (fun n _ => match n with
                | O => Responded (search_response hits)
                | S _ => Responded (ok_response (VDict [("results", VDict [("officers", sample_officers)])]))
                end)
    demo_repr.

(** An agent without a token. *)
Definition anonymous_agent : OpenCorporatesAgent :=
  mkAgent "https://api.opencorporates.com/v0.4" VNone.

(** A registry whose bodies are JSON nested too deep for the decoder. *)
Definition registry_of_deep_bodies : Runtime :=
  mkRuntime
    (fun _ _ =>
       Responded (mkResponse 200 "OK" "" "[[[[...]]]]"
                    (inr (DecoderRaised (RecursionError "maximum recursion depth exceeded")))))
    demo_repr.

Definition late_run : Outcome value * World :=
  Eval vm_compute in
    find_company_controllers (registry_with_officers late_hits) demo_agent
      (VStr "ACME") VNone fresh_world.

(** ** The monad *)

Lemma bind_Ok_inv {A B} (m : M A) (k : A -> M B) w b w' :
  bind m k w = (Ok b, w') ->
  exists a w1, m w = (Ok a, w1) /\ k a w1 = (Ok b, w').
Proof.
  unfold bind. destruct (m w) as [[a|e] w1]; intros H.
  - exists a, w1. split; [reflexivity | exact H].
  - discriminate H.
Qed.

Lemma bind_Ok {A B} (m : M A) (k : A -> M B) w a w1 :
  m w = (Ok a, w1) -> bind m k w = k a w1.
Proof. intros H. unfold bind. rewrite H. reflexivity. Qed.

Lemma bind_Raise {A B} (m : M A) (k : A -> M B) w e w1 :
  m w = (Raise e, w1) -> bind m k w = (Raise e, w1).
Proof. intros H. unfold bind. rewrite H. reflexivity. Qed.

Lemma bind_ret {A B} (a : A) (k : A -> M B) w : bind (ret a) k w = k a w.
Proof. reflexivity. Qed.

(** ** _make_request *)

(** [_make_request] sends one request.  An exception of the HTTP library
    that is no [RequestException] passes through it; every other failure of
    the transport comes back as an error dictionary, anything else as the
    decoded body. *)
Lemma make_request_spec rt self endpoint params w :
  let rq := request_of self endpoint params in
  let t := upstream rt (length (sent w)) rq in
  match escapes t with
  | Some e =>
      _make_request rt self endpoint params w
      = (Raise (LibraryError e), mkWorld (sent w ++ [rq]) (stdout w))
  | None =>
      exists v out,
        _make_request rt self endpoint params w
        = (Ok v, mkWorld (sent w ++ [rq]) (stdout w ++ out)) /\
        (transport_failed t = true -> error_result v) /\
        (transport_failed t = false ->
         exists r, t = Responded r /\ json_body r = inl v /\ out = [])
  end.
Proof.
  intros rq t.
  unfold _make_request, try_except, bind, requests_get, raise_for_status, response_json.
  fold (request_of self endpoint params). fold rq. fold t.
  unfold escapes, transport_failed, http_error, error_result, print, ret, raise.
  destruct t as [msg resp | e | r]; cbn -[append Z.leb Z.ltb].
  - destruct resp as [r|]; cbn -[append]; eexists; eexists;
      (split; [rewrite <- ?app_assoc; reflexivity|]);
      (split; [intros _; eexists; reflexivity | discriminate]).
  - reflexivity.
  - destruct ((400 <=? status_code r) && (status_code r <? 500))%Z eqn:E4;
      [|destruct ((500 <=? status_code r) && (status_code r <? 600))%Z eqn:E5];
      cbn -[append Z.leb Z.ltb].
    + replace ((400 <=? status_code r) && (status_code r <? 600))%Z with true by lia.
      eexists; eexists. split; [rewrite <- ?app_assoc; reflexivity|].
      split; [intros _; eexists; reflexivity | discriminate].
    + replace ((400 <=? status_code r) && (status_code r <? 600))%Z with true by lia.
      eexists; eexists. split; [rewrite <- ?app_assoc; reflexivity|].
      split; [intros _; eexists; reflexivity | discriminate].
    + replace ((400 <=? status_code r) && (status_code r <? 600))%Z with false by lia.
      destruct (json_body r) as [v|[msg|e]] eqn:Ej; cbn -[append Z.leb Z.ltb].
      * exists v, []. rewrite app_nil_r. split; [reflexivity|].
        split; [discriminate | intros _; exists r; auto].
      * eexists; eexists. split; [rewrite <- ?app_assoc; reflexivity|].
        split; [intros _; eexists; reflexivity | discriminate].
      * reflexivity.
Qed.

(** A failure of the transport is never an exception that passes through. *)
Lemma failed_does_not_escape t : transport_failed t = true -> escapes t = None.
Proof.
  unfold transport_failed, escapes. destruct t as [msg resp | e | r]; try reflexivity;
    try discriminate.
  destruct (http_error r); [reflexivity|]. cbn [orb].
  destruct (json_body r) as [v|[msg|e]]; try reflexivity; discriminate.
Qed.

(** Whatever the answer, [_make_request] has sent its one request. *)
Lemma make_request_sent rt self endpoint params w :
  sent (snd (_make_request rt self endpoint params w))
  = (sent w ++ [request_of self endpoint params])%list.
Proof.
  pose proof (make_request_spec rt self endpoint params w) as H. cbv zeta in H.
  destruct (escapes _) as [e|].
  - rewrite H. reflexivity.
  - destruct H as (v & out & -> & _). reflexivity.
Qed.

(** A failed request comes back as an error dictionary. *)
Lemma make_request_failed rt self endpoint params w :
  transport_failed (upstream rt (length (sent w)) (request_of self endpoint params)) = true ->
  exists v out,
    _make_request rt self endpoint params w
    = (Ok v, mkWorld (sent w ++ [request_of self endpoint params]) (stdout w ++ out)) /\
    error_result v.
Proof.
  intros Hfail.
  pose proof (make_request_spec rt self endpoint params w) as H. cbv zeta in H.
  rewrite (failed_does_not_escape _ Hfail) in H.
  destruct H as (v & out & Hrun & Herr & _).
  exists v, out. split; [exact Hrun | apply Herr, Hfail].
Qed.

(** An answered request comes back as the decoded body. *)
Lemma make_request_answered rt self endpoint params w r v :
  upstream rt (length (sent w)) (request_of self endpoint params) = Responded r ->
  http_error r = false ->
  json_body r = inl v ->
  _make_request rt self endpoint params w
  = (Ok v, mkWorld (sent w ++ [request_of self endpoint params]) (stdout w)).
Proof.
  intros Hr Hs Hj.
  pose proof (make_request_spec rt self endpoint params w) as H. cbv zeta in H.
  rewrite Hr in H. unfold escapes, transport_failed in H. rewrite Hs, Hj in H.
  destruct H as (v' & out & Hrun & _ & Hok).
  destruct (Hok eq_refl) as (r' & Hr' & Hj' & ->).
  inversion Hr'; subst r'. rewrite Hj in Hj'. inversion Hj'; subst v'.
  rewrite Hrun, app_nil_r. reflexivity.
Qed.

(** ** The three lookups *)

Lemma search_companies_eq rt self query code :
  search_companies rt self query code
  = (response <- _make_request rt self "companies/search" (Some (search_params query code)) ;;
     results_field "companies" (VList []) response).
Proof. reflexivity. Qed.

Lemma get_company_officers_eq rt self j n :
  get_company_officers rt self j n
  = (response <- _make_request rt self (officers_endpoint rt j n) None ;;
     results_field "officers" (VList []) response).
Proof. reflexivity. Qed.

(** Reading the field never touches the world. *)
Lemma results_field_world field empty response w :
  snd (results_field field empty response w) = w.
Proof.
  unfold results_field, bind, try_except, py_in, py_get, ret, raise.
  destruct response as [| b | z | f | s | l | d]; cbn -[append]; try reflexivity.
  - destruct (str_contains s "error"); reflexivity.
  - destruct (existsb _ l); reflexivity.
  - destruct (dict_mem d "error"); cbn -[append]; [reflexivity|].
    destruct (dict_get d "results") as [[| b | z | f | s | l | d']|]; reflexivity.
Qed.

(** An error dictionary reads as the empty result. *)
Lemma results_field_error field empty v w :
  error_result v -> results_field field empty v w = (Ok empty, w).
Proof. intros [msg ->]. reflexivity. Qed.

(** Reading the field raises only on a body that is no container at all. *)
Lemma results_field_container field empty response w :
  match response with VStr _ | VList _ | VDict _ => True | _ => False end ->
  exists v, results_field field empty response w = (Ok v, w).
Proof.
  unfold results_field, bind, try_except, py_in, py_get, ret, raise.
  destruct response as [| b | z | f | s | l | d]; cbn -[append]; intros H; try contradiction.
  - destruct (str_contains s "error"); eexists; reflexivity.
  - destruct (existsb _ l); eexists; reflexivity.
  - destruct (dict_mem d "error"); cbn -[append]; [eexists; reflexivity|].
    destruct (dict_get d "results") as [[| b | z | f | s | l | d']|]; eexists; reflexivity.
Qed.

(** A lookup, whatever its outcome, has sent its one request. *)
Lemma lookup_sent rt self endpoint params field empty w :
  sent (snd ((response <- _make_request rt self endpoint params ;;
              results_field field empty response) w))
  = (sent w ++ [request_of self endpoint params])%list.
Proof.
  unfold bind. pose proof (make_request_sent rt self endpoint params w) as Hs.
  destruct (_make_request rt self endpoint params w) as [[v|e] w1]; cbn [snd] in *;
    [|exact Hs].
  pose proof (results_field_world field empty v w1) as Hw.
  destruct (results_field field empty v w1) as [[x|e] w2]; cbn [snd] in *; subst w2; exact Hs.
Qed.

(** ** One search hit *)

(** A hit with a company record: skipped when a field is missing, else
    its officers are fetched and an entry is appended. *)
Lemma candidate_body_company rt self company_data company results w :
  candidate_company company_data = Some company ->
  candidate_body rt self company_data results w
  = if identified company
    then (officers <- get_company_officers rt self (field_of company "jurisdiction_code")
                        (field_of company "company_number") ;;
          ret (results ++ [entry_of company officers])%list) w
    else (Ok results, w).
Proof.
  unfold candidate_company. intros H.
  destruct company_data as [| b | z | f | s | l | d]; try discriminate H.
  unfold candidate_body, py_get at 1.
  destruct (dict_get d "company") as [[| b | z | f | s | l | c]|]; inversion H; subst company.
  - rewrite bind_ret. unfold py_get. rewrite !bind_ret.
    fold (field_of c "jurisdiction_code"). fold (field_of c "company_number").
    fold (identified c). destruct (identified c); [|reflexivity].
    unfold bind. destruct (get_company_officers _ _ _ _ w) as [[o|e] w']; reflexivity.
  - reflexivity.
Qed.

(** A hit without a company record raises inside the [try] block. *)
Lemma candidate_body_no_company rt self company_data w :
  candidate_company company_data = None ->
  exists msg, forall results,
    candidate_body rt self company_data results w = (Raise (AttributeError msg), w).
Proof.
  unfold candidate_company. intros H.
  destruct company_data as [| b | z | f | s | l | d];
    try (eexists; intros; reflexivity).
  unfold candidate_body, py_get at 1.
  destruct (dict_get d "company") as [[| b | z | f | s | l | c]|]; try discriminate H;
    eexists; intros; reflexivity.
Qed.

(** The entry built for an identified company carries both fields. *)
Lemma entry_of_identified company officers :
  identified company = true -> entry_identified (entry_of company officers).
Proof.
  unfold identified. intros H. apply andb_true_iff in H. destruct H as [Hj Hn].
  exists (match entry_of company officers with VDict d => d | _ => [] end),
    (field_of company "jurisdiction_code"), (field_of company "company_number").
  repeat split; assumption.
Qed.

(** The [try] block leaves [results] alone or appends one entry, and what
    it does otherwise does not depend on [results]. *)
Lemma candidate_body_acc rt self company_data results w :
  candidate_body rt self company_data results w
  = match candidate_body rt self company_data [] w with
    | (Ok new, w') => (Ok (results ++ new)%list, w')
    | (Raise e, w') => (Raise e, w')
    end.
Proof.
  destruct (candidate_company company_data) as [company|] eqn:E.
  - rewrite !(candidate_body_company _ _ _ _ _ _ E).
    destruct (identified company).
    + unfold bind, ret. destruct (get_company_officers _ _ _ _ w) as [[o|e] w']; reflexivity.
    + rewrite app_nil_r. reflexivity.
  - destruct (candidate_body_no_company rt self company_data w E) as [msg H].
    rewrite !H. reflexivity.
Qed.

(** One iteration never raises: whatever the [try] block raises is
    printed, and [results] is as it was. *)
Lemma process_candidate_eq rt self company_data results w :
  process_candidate rt self company_data results w
  = match candidate_body rt self company_data [] w with
    | (Ok new, w') => (Ok (results ++ new)%list, w')
    | (Raise e, w') =>
        (Ok results,
         mkWorld (sent w') (stdout w' ++ ["Error processing company: " ++ exn_str e]))
    end.
Proof.
  unfold process_candidate, try_except. rewrite candidate_body_acc.
  destruct (candidate_body rt self company_data [] w) as [[new|e] w']; reflexivity.
Qed.

(** What the [try] block can append, starting from nothing. *)
Lemma candidate_body_new rt self company_data w new w' :
  candidate_body rt self company_data [] w = (Ok new, w') ->
  (new = [] /\ w' = w) \/ (exists entry, new = [entry] /\ entry_identified entry).
Proof.
  destruct (candidate_company company_data) as [company|] eqn:E.
  - rewrite (candidate_body_company _ _ _ _ _ _ E).
    destruct (identified company) eqn:Ei.
    + unfold bind, ret. destruct (get_company_officers _ _ _ _ w) as [[o|e] w1]; intros H;
        inversion H; subst. right. eexists. split; [reflexivity|].
      apply entry_of_identified, Ei.
    + intros H. inversion H. left. split; reflexivity.
  - destruct (candidate_body_no_company rt self company_data w E) as [msg H].
    rewrite H. discriminate.
Qed.

(** ** The loop *)

(** The loop never raises; it keeps the entries it started with, in
    order, and appends at most one identified entry per hit. *)
Lemma for_each_candidate_total rt self candidates : forall results w,
  exists new w',
    for_each_candidate rt self candidates results w = (Ok (results ++ new)%list, w') /\
    length new <= length candidates /\
    Forall entry_identified new.
Proof.
  induction candidates as [|c cs IH]; intros results w.
  - exists [], w. rewrite app_nil_r. repeat split; [apply Nat.le_refl | constructor].
  - cbn [for_each_candidate]. unfold bind at 1. rewrite process_candidate_eq.
    destruct (candidate_body rt self c [] w) as [[new|e] w1] eqn:E.
    + destruct (IH (results ++ new)%list w1) as (rest & w' & Hrun & Hlen & Hall).
      exists (new ++ rest)%list, w'. rewrite app_assoc. split; [exact Hrun|].
      destruct (candidate_body_new _ _ _ _ _ _ E) as [[-> _] | (entry & -> & He)].
      * split; [cbn; lia | exact Hall].
      * split; [cbn; lia | constructor; assumption].
    + destruct (IH results (mkWorld (sent w1)
                              (stdout w1 ++ ["Error processing company: " ++ exn_str e])))
        as (rest & w' & Hrun & Hlen & Hall).
      exists rest, w'. split; [exact Hrun|]. split; [cbn; lia | exact Hall].
Qed.

(** What the loop does otherwise does not depend on the entries it starts
    with. *)
Lemma for_each_candidate_acc rt self candidates : forall results w,
  for_each_candidate rt self candidates results w
  = match for_each_candidate rt self candidates [] w with
    | (Ok new, w') => (Ok (results ++ new)%list, w')
    | (Raise e, w') => (Raise e, w')
    end.
Proof.
  induction candidates as [|c cs IH]; intros results w.
  - cbn. rewrite app_nil_r. reflexivity.
  - cbn [for_each_candidate]. unfold bind. rewrite !process_candidate_eq.
    destruct (candidate_body rt self c [] w) as [[new|e] w1].
    + rewrite (IH (results ++ new)%list), (IH ([] ++ new)%list).
      destruct (for_each_candidate rt self cs [] w1) as [[rest|e] w']; [|reflexivity].
      rewrite app_assoc. reflexivity.
    + rewrite (IH results), (IH []).
      destruct (for_each_candidate rt self cs [] _) as [[rest|e'] w']; reflexivity.
Qed.

(** ** find_company_controllers *)

Lemma jurisdiction_code_of_resolve hint w :
  jurisdiction_code_of hint w = (resolve hint, w).
Proof.
  unfold resolve, jurisdiction_code_of.
  destruct (truthy hint); [|reflexivity].
  unfold bind, py_lower. destruct hint; reflexivity.
Qed.

Lemma falsy_no_candidates companies :
  truthy companies = false -> candidates_of companies = [].
Proof.
  destruct companies as [| b | z | f | s | l | d]; cbn; try reflexivity.
  - destruct s; [reflexivity | discriminate].
  - destruct l; [reflexivity | discriminate].
Qed.

(** A truthy value can be sliced and iterated exactly when it is a list or
    a str, and then it has a first item. *)
Lemma py_first3_Ok companies top w w' :
  truthy companies = true ->
  py_first3 companies w = (Ok top, w') ->
  candidates_of companies <> [] /\ top = firstn 3 (candidates_of companies) /\ w' = w.
Proof.
  destruct companies as [| b | z | f | s | l | d]; cbn; intros Ht H; try discriminate H.
  - inversion H. destruct s; [discriminate Ht|]. cbn. repeat split. discriminate.
  - inversion H. destruct l; [discriminate Ht|]. repeat split. discriminate.
Qed.

(** Every run of [find_company_controllers] that returns went through the
    search step, and then either found nothing or ran the loop over the
    first three hits. *)
Lemma find_company_controllers_inv rt self company_name hint w r w' :
  find_company_controllers rt self company_name hint w = (Ok r, w') ->
  exists code companies w1,
    resolve hint = Ok code /\
    search_companies rt self company_name code w = (Ok companies, w1) /\
    ((candidates_of companies = [] /\ r = not_found_result rt company_name /\ w' = w1) \/
     (candidates_of companies <> [] /\
      exists results,
        for_each_candidate rt self (firstn 3 (candidates_of companies)) [] w1 = (Ok results, w') /\
        r = found_result rt company_name results)).
Proof.
  unfold find_company_controllers. intros H.
  apply bind_Ok_inv in H. destruct H as (code & w0 & Hcode & H).
  rewrite jurisdiction_code_of_resolve in Hcode. inversion Hcode; subst w0.
  apply bind_Ok_inv in H. destruct H as (companies & w1 & Hsearch & H).
  exists code, companies, w1. split; [assumption|]. split; [assumption|].
  destruct (truthy companies) eqn:Ht; cbn [negb] in H.
  - right. apply bind_Ok_inv in H. destruct H as (top & w2 & Htop & H).
    destruct (py_first3_Ok _ _ _ _ Ht Htop) as (Hne & -> & ->).
    split; [assumption|].
    apply bind_Ok_inv in H. destruct H as (results & w3 & Hloop & H).
    exists results. inversion H; subst. split; [assumption|].
    unfold found_result. destruct results; reflexivity.
  - left. inversion H. split; [apply falsy_no_candidates, Ht|]. split; reflexivity.
Qed.

(** When the search step returns a list, the lookup returns. *)
Lemma find_company_controllers_returns rt self company_name hint w code hits w1 :
  resolve hint = Ok code ->
  search_companies rt self company_name code w = (Ok (VList hits), w1) ->
  exists r w', find_company_controllers rt self company_name hint w = (Ok r, w').
Proof.
  intros Hcode Hsearch. unfold find_company_controllers.
  rewrite (bind_Ok _ _ _ _ _ (eq_trans (jurisdiction_code_of_resolve hint w)
                                       (f_equal (fun o => (o, w)) Hcode))).
  rewrite (bind_Ok _ _ _ _ _ Hsearch).
  destruct hits as [|c cs]; cbn [truthy negb].
  - eexists; eexists; reflexivity.
  - unfold py_first3. rewrite bind_ret.
    destruct (for_each_candidate_total rt self (firstn 3 (c :: cs)) [] w1)
      as (new & w' & Hrun & _).
    rewrite (bind_Ok _ _ _ _ _ Hrun). eexists; eexists; reflexivity.
Qed.

(** A lookup whose request fails returns its empty value. *)
Lemma lookup_failed rt self endpoint params field empty w :
  transport_failed (upstream rt (length (sent w)) (request_of self endpoint params)) = true ->
  exists out,
    (response <- _make_request rt self endpoint params ;; results_field field empty response) w
    = (Ok empty, mkWorld (sent w ++ [request_of self endpoint params]) (stdout w ++ out)).
Proof.
  intros Hfail.
  destruct (make_request_failed rt self endpoint params w Hfail) as (v & out & Hrun & Herr).
  exists out. rewrite (bind_Ok _ _ _ _ _ Hrun).
  apply results_field_error, Herr.
Qed.

Lemma entry_identified_complete entry : entry_identified entry -> entry_complete entry.
Proof.
  intros (d & j & n & -> & Hj & Tj & Hn & Tn).
  exists d, j, n. repeat split; try assumption.
  - intros ->. discriminate Tj.
  - intros ->. discriminate Tn.
Qed.

(** A hit whose company record lacks a field is skipped: nothing is
    appended, nothing is sent, nothing is printed. *)
Lemma process_candidate_skips rt self company_data company results w :
  candidate_company company_data = Some company ->
  identified company = false ->
  process_candidate rt self company_data results w = (Ok results, w).
Proof.
  intros Hc Hi. rewrite process_candidate_eq, (candidate_body_company _ _ _ _ _ _ Hc), Hi.
  rewrite app_nil_r. reflexivity.
Qed.

(** * The claims *)

(** C4, as the code has it. [_make_request] returns a value, and raises
    nothing, for every endpoint and parameter map whenever [requests.get]
    and [response.json()] raise nothing but a [RequestException]: an error
    dictionary when the transport fails (no response, a 4xx or 5xx status, a
    body that is not JSON), the decoded body otherwise.  An exception of
    another class from the HTTP library is not caught: it reaches the
    caller, after the request was handed over and with nothing printed. *)
Theorem make_request_returns_or_escapes rt self endpoint params w :
  (escapes (upstream rt (length (sent w)) (request_of self endpoint params)) = None ->
   exists v w',
     _make_request rt self endpoint params w = (Ok v, w') /\
     (transport_failed (upstream rt (length (sent w)) (request_of self endpoint params)) = true ->
      error_result v) /\
     (transport_failed (upstream rt (length (sent w)) (request_of self endpoint params)) = false ->
      exists r,
        upstream rt (length (sent w)) (request_of self endpoint params) = Responded r /\
        json_body r = inl v)) /\
  (forall e,
     escapes (upstream rt (length (sent w)) (request_of self endpoint params)) = Some e ->
     _make_request rt self endpoint params w
     = (Raise (LibraryError e),
        mkWorld (sent w ++ [request_of self endpoint params]) (stdout w))).
Proof.
  pose proof (make_request_spec rt self endpoint params w) as H. cbv zeta in H.
  split.
  - intros Hnone. rewrite Hnone in H. destruct H as (v & out & Hrun & Herr & Hok).
    exists v. eexists. split; [exact Hrun|]. split; [exact Herr|].
    intros Hf. destruct (Hok Hf) as (r & Hr & Hj & _). exists r. split; assumption.
  - intros e He. rewrite He in H. exact H.
Qed.

Lemma make_request_returns_or_escapes_witness :
  escapes (upstream registry_down (length (sent fresh_world))
             (request_of demo_agent "companies/search" (Some [("q", VStr "ACME")]))) = None /\
  exists v w',
    _make_request registry_down demo_agent "companies/search" (Some [("q", VStr "ACME")])
      fresh_world = (Ok v, w') /\
    error_result v.
Proof.
  split; [reflexivity|].
  destruct (proj1 (make_request_returns_or_escapes registry_down demo_agent "companies/search"
                     (Some [("q", VStr "ACME")]) fresh_world) eq_refl)
    as (v & w' & Hrun & Herr & _).
  exists v, w'. split; [exact Hrun | apply Herr; reflexivity].
Defined.

(** C4 as stated fails: a body nested too deep for the decoder makes
    [response.json()] raise a [RecursionError], which [except
    RequestException] does not catch. *)
Lemma make_request_raises_on_deep_body :
  _make_request registry_of_deep_bodies demo_agent "companies/search"
    (Some [("q", VStr "ACME")]) fresh_world
  = (Raise (LibraryError (RecursionError "maximum recursion depth exceeded")),
     mkWorld [request_of demo_agent "companies/search" (Some [("q", VStr "ACME")])] []).
Proof. reflexivity. Qed.

(** C2. Whatever the search step returns, the [results] of a lookup hold at
    most three entries. *)
Theorem results_at_most_three rt self company_name hint w r w' :
  find_company_controllers rt self company_name hint w = (Ok r, w') ->
  exists results, results_of r = Some (VList results) /\ length results <= 3.
Proof.
  intros H. apply find_company_controllers_inv in H.
  destruct H as (code & companies & w1 & _ & _ & [(_ & -> & _) | (_ & results & Hloop & ->)]).
  - exists []. split; [reflexivity | cbn; lia].
  - exists results. split; [reflexivity|].
    destruct (for_each_candidate_total rt self (firstn 3 (candidates_of companies)) [] w1)
      as (new & w2 & Hrun & Hlen & _).
    rewrite Hloop in Hrun. inversion Hrun; subst.
    pose proof (firstn_le_length 3 (candidates_of companies)). cbn [app]. lia.
Qed.

Lemma results_at_most_three_witness :
  find_company_controllers (registry_without_officers complete_hits) demo_agent
    (VStr "ACME") VNone fresh_world = complete_run /\
  exists results,
    results_of (returned complete_run) = Some (VList results) /\ length results <= 3.
Proof.
  split; [vm_compute; reflexivity|].
  apply (results_at_most_three (registry_without_officers complete_hits) demo_agent
           (VStr "ACME") VNone fresh_world (returned complete_run) (snd complete_run)).
  vm_compute; reflexivity.
Defined.

(** C3. Every entry of the [results] of a lookup has a jurisdiction code
    and a company number that are not [None]; a hit whose company record
    lacks either field is skipped silently: it adds no entry, sends no
    request and prints nothing. *)
Theorem results_are_identified rt self company_name hint w :
  (forall r w',
     find_company_controllers rt self company_name hint w = (Ok r, w') ->
     exists results, results_of r = Some (VList results) /\ Forall entry_complete results) /\
  (forall company_data company results w0,
     candidate_company company_data = Some company ->
     field_of company "jurisdiction_code" = VNone \/ field_of company "company_number" = VNone ->
     process_candidate rt self company_data results w0 = (Ok results, w0)).
Proof.
  split.
  - intros r w' H. apply find_company_controllers_inv in H.
    destruct H as (code & companies & w1 & _ & _ & [(_ & -> & _) | (_ & results & Hloop & ->)]).
    + exists []. split; [reflexivity | constructor].
    + exists results. split; [reflexivity|].
      destruct (for_each_candidate_total rt self (firstn 3 (candidates_of companies)) [] w1)
        as (new & w2 & Hrun & _ & Hall).
      rewrite Hloop in Hrun. inversion Hrun; subst. cbn [app].
      eapply Forall_impl; [|exact Hall]. apply entry_identified_complete.
  - intros company_data company results w0 Hc Hmissing.
    apply (process_candidate_skips _ _ _ _ _ _ Hc).
    unfold identified. destruct Hmissing as [-> | ->]; [reflexivity | apply andb_false_r].
Qed.

Lemma results_are_identified_witness :
  (find_company_controllers (registry_without_officers five_hits) demo_agent
     (VStr "ACME") (VStr "CA") fresh_world = mixed_run /\
   exists results,
     results_of (returned mixed_run) = Some (VList results) /\ Forall entry_complete results) /\
  (candidate_company (hit (VStr "ACME LLC") (VStr "us_ca") VNone)
   = Some [("name", VStr "ACME LLC"); ("jurisdiction_code", VStr "us_ca");
           ("company_number", VNone)] /\
   process_candidate (registry_without_officers five_hits) demo_agent
     (hit (VStr "ACME LLC") (VStr "us_ca") VNone) [] searched_world = (Ok [], searched_world)).
Proof.
  destruct (results_are_identified (registry_without_officers five_hits) demo_agent
              (VStr "ACME") (VStr "CA") fresh_world) as [Hall Hskip].
  split.
  - split; [vm_compute; reflexivity|].
    apply (Hall (returned mixed_run) (snd mixed_run)). vm_compute; reflexivity.
  - split; [reflexivity|].
    apply (Hskip _ [("name", VStr "ACME LLC"); ("jurisdiction_code", VStr "us_ca");
                    ("company_number", VNone)]); [reflexivity | right; reflexivity].
Defined.

(** C7. An exception raised while one hit is processed does not end the
    loop: it is caught and printed, the loop goes on with the remaining
    hits from the same [results], and the loop as a whole never raises and
    keeps, in order, every entry appended before. *)
Theorem loop_isolates_failures rt self :
  (forall company_data rest results w e w1,
     candidate_body rt self company_data results w = (Raise e, w1) ->
     for_each_candidate rt self (company_data :: rest) results w
     = for_each_candidate rt self rest results
         (mkWorld (sent w1) (stdout w1 ++ ["Error processing company: " ++ exn_str e]))) /\
  (forall candidates results w,
     exists new w',
       for_each_candidate rt self candidates results w = (Ok (results ++ new)%list, w')).
Proof.
  split.
  - intros company_data rest results w e w1 H.
    cbn [for_each_candidate]. unfold bind at 1, process_candidate, try_except.
    rewrite H. reflexivity.
  - intros candidates results w.
    destruct (for_each_candidate_total rt self candidates results w) as (new & w' & H & _).
    exists new, w'. exact H.
Qed.

Lemma loop_isolates_failures_witness :
  candidate_body (registry_without_officers five_hits) demo_agent broken_hit
    [entry_of first_company (VList [])] searched_world
  = (Raise (AttributeError "'NoneType' object has no attribute 'get'"), searched_world) /\
  for_each_candidate (registry_without_officers five_hits) demo_agent
    [broken_hit; hit (VStr "ACME CORP") (VStr "us_il") (VStr "C4")]
    [entry_of first_company (VList [])] searched_world
  = for_each_candidate (registry_without_officers five_hits) demo_agent
      [hit (VStr "ACME CORP") (VStr "us_il") (VStr "C4")]
      [entry_of first_company (VList [])]
      (mkWorld (sent searched_world)
         (stdout searched_world
          ++ ["Error processing company: 'NoneType' object has no attribute 'get'"])).
Proof.
  split; [reflexivity|].
  apply (proj1 (loop_isolates_failures (registry_without_officers five_hits) demo_agent)
           broken_hit [hit (VStr "ACME CORP") (VStr "us_il") (VStr "C4")]
           [entry_of first_company (VList [])] searched_world
           (AttributeError "'NoneType' object has no attribute 'get'") searched_world).
  reflexivity.
Defined.

(** C8. When the request for the officers of a company fails, so that the
    request layer returns an error dictionary, [get_company_officers]
    returns an empty list and raises nothing; a hit with both fields whose
    officers request failed is appended all the same, with no officers. *)
Theorem failed_officers_fetch_is_empty rt self :
  (forall j n w v w1,
     _make_request rt self (officers_endpoint rt j n) None w = (Ok v, w1) ->
     error_result v ->
     get_company_officers rt self j n w = (Ok (VList []), w1)) /\
  (forall j n w,
     transport_failed
       (upstream rt (length (sent w)) (request_of self (officers_endpoint rt j n) None)) = true ->
     exists w1, get_company_officers rt self j n w = (Ok (VList []), w1)) /\
  (forall company_data company results w,
     candidate_company company_data = Some company ->
     identified company = true ->
     transport_failed
       (upstream rt (length (sent w))
          (request_of self
             (officers_endpoint rt (field_of company "jurisdiction_code")
                (field_of company "company_number")) None)) = true ->
     exists w1,
       process_candidate rt self company_data results w
       = (Ok (results ++ [entry_of company (VList [])])%list, w1)).
Proof.
  split; [|split].
  - intros j n w v w1 Hrun Herr. rewrite get_company_officers_eq.
    rewrite (bind_Ok _ _ _ _ _ Hrun). apply results_field_error, Herr.
  - intros j n w Hfail. rewrite get_company_officers_eq.
    destruct (lookup_failed rt self (officers_endpoint rt j n) None "officers" (VList []) w Hfail)
      as (out & H).
    eexists. exact H.
  - intros company_data company results w Hc Hi Hfail.
    rewrite process_candidate_eq, (candidate_body_company _ _ _ _ _ _ Hc), Hi.
    rewrite get_company_officers_eq.
    destruct (lookup_failed rt self _ None "officers" (VList []) w Hfail) as (out & H).
    rewrite (bind_Ok _ _ _ _ _ H). eexists. reflexivity.
Qed.

Lemma failed_officers_fetch_is_empty_witness :
  (candidate_company first_hit = Some first_company /\ identified first_company = true) /\
  exists w1,
    process_candidate (registry_without_officers five_hits) demo_agent first_hit []
      searched_world
    = (Ok [entry_of first_company (VList [])], w1).
Proof.
  split; [split; reflexivity|].
  apply (proj2 (proj2 (failed_officers_fetch_is_empty
                         (registry_without_officers five_hits) demo_agent))
           first_hit first_company [] searched_world); reflexivity.
Defined.

(** ** Messages *)

Lemma substring_prefix s b : substring 0 (String.length s) (s ++ b) = s.
Proof.
  induction s as [|c s IH]; cbn.
  - destruct b; reflexivity.
  - rewrite IH. reflexivity.
Qed.

Lemma substring_middle a s b :
  substring (String.length a) (String.length s) (a ++ s ++ b) = s.
Proof.
  induction a as [|c a IH]; cbn.
  - apply substring_prefix.
  - exact IH.
Qed.

(** A text built around [s] contains [s]. *)
Lemma str_contains_middle a s b : str_contains (a ++ s ++ b) s = true.
Proof.
  unfold str_contains.
  destruct (index 0 s (a ++ s ++ b)) as [m|] eqn:E; [reflexivity|].
  destruct s as [|c s].
  - apply index_correct4 in E. inversion E.
  - exfalso.
    apply (index_correct3 0 (String.length a) _ _ E); [discriminate | apply Nat.le_0_l|].
    apply substring_middle.
Qed.

(** C6. When the search step returned at least one hit, the message of the
    lookup is "Found k potential matches for 'name'" with k the length of
    the returned [results] (0 included); when it returned none, the message
    is "No companies found matching 'name'", which contains the name. *)
Theorem message_counts_results rt self name hint w r w' :
  find_company_controllers rt self (VStr name) hint w = (Ok r, w') ->
  exists code companies w1 results,
    resolve hint = Ok code /\
    search_companies rt self (VStr name) code w = (Ok companies, w1) /\
    results_of r = Some (VList results) /\
    (candidates_of companies <> [] ->
     message_of r
     = Some (VStr ("Found " ++ str_of_nat (length results)
                   ++ " potential matches for '" ++ name ++ "'"))) /\
    (candidates_of companies = [] ->
     message_of r = Some (VStr ("No companies found matching '" ++ name ++ "'")) /\
     str_contains ("No companies found matching '" ++ name ++ "'") name = true).
Proof.
  intros H. apply find_company_controllers_inv in H.
  destruct H as (code & companies & w1 & Hcode & Hsearch & H).
  exists code, companies, w1.
  destruct H as [(Hnone & -> & _) | (Hsome & results & Hloop & ->)].
  - exists []. split; [assumption|]. split; [assumption|]. split; [reflexivity|].
    split; [congruence|]. intros _. split; [reflexivity|].
    apply str_contains_middle.
  - exists results. split; [assumption|]. split; [assumption|]. split; [reflexivity|].
    split; [intros _; reflexivity | congruence].
Qed.

Lemma message_counts_results_witness :
  find_company_controllers (registry_without_officers anonymous_hits) demo_agent
    (VStr "ACME") VNone fresh_world = anonymous_run /\
  status_of (returned anonymous_run) = Some (VStr "partial_results") /\
  results_of (returned anonymous_run) = Some (VList []) /\
  message_of (returned anonymous_run) = Some (VStr "Found 0 potential matches for 'ACME'").
Proof.
  split; [vm_compute; reflexivity|]. split; [reflexivity|].
  destruct (message_counts_results (registry_without_officers anonymous_hits) demo_agent
              "ACME" VNone fresh_world (returned anonymous_run) (snd anonymous_run))
    as (code & companies & w1 & results & Hcode & Hsearch & Hresults & Hfound & _);
    [vm_compute; reflexivity|].
  assert (Hr : results = []) by (vm_compute in Hresults; congruence).
  subst results. split; [reflexivity|].
  apply Hfound.
  vm_compute in Hcode. inversion Hcode; subst code.
  vm_compute in Hsearch. inversion Hsearch. discriminate.
Defined.

(** ** Jurisdiction hints *)

(** A str hint resolves to what the table holds for its lower-case form. *)
Lemma resolve_str s : resolve (VStr s) = Ok (field_of state_codes (lower s)).
Proof.
  unfold resolve, jurisdiction_code_of. cbn [truthy].
  destruct s as [|c s]; reflexivity.
Qed.

(** A hint the table does not know is the same as no hint at all. *)
Lemma find_unknown_hint rt self company_name s w :
  dict_get state_codes (lower s) = None ->
  find_company_controllers rt self company_name (VStr s) w
  = find_company_controllers rt self company_name VNone w.
Proof.
  intros H. unfold find_company_controllers.
  unfold bind at 1. unfold bind at 4.
  rewrite !jurisdiction_code_of_resolve, resolve_str. unfold field_of. rewrite H.
  reflexivity.
Qed.

(** ** The requests a lookup sends *)

Lemma search_companies_sent rt self query code w :
  sent (snd (search_companies rt self query code w))
  = (sent w ++ [request_of self "companies/search" (Some (search_params query code))])%list.
Proof. rewrite search_companies_eq. apply lookup_sent. Qed.

Lemma get_company_officers_sent rt self j n w :
  exists rq, sent (snd (get_company_officers rt self j n w)) = (sent w ++ [rq])%list.
Proof. eexists. rewrite get_company_officers_eq. apply lookup_sent. Qed.

Lemma process_candidate_sent rt self company_data results w :
  exists later,
    sent (snd (process_candidate rt self company_data results w)) = (sent w ++ later)%list.
Proof.
  rewrite process_candidate_eq.
  destruct (candidate_company company_data) as [company|] eqn:E.
  - rewrite (candidate_body_company _ _ _ _ _ _ E).
    destruct (identified company).
    + destruct (get_company_officers_sent rt self (field_of company "jurisdiction_code")
                  (field_of company "company_number") w) as (rq & Hrq).
      exists [rq]. unfold bind, ret.
      destruct (get_company_officers _ _ _ _ w) as [[o|e] w1]; exact Hrq.
    + exists []. rewrite !app_nil_r. reflexivity.
  - destruct (candidate_body_no_company rt self company_data w E) as [msg H].
    rewrite H. exists []. rewrite !app_nil_r. reflexivity.
Qed.

Lemma for_each_candidate_sent rt self candidates : forall results w,
  exists later,
    sent (snd (for_each_candidate rt self candidates results w)) = (sent w ++ later)%list.
Proof.
  induction candidates as [|c cs IH]; intros results w.
  - exists []. rewrite app_nil_r. reflexivity.
  - cbn [for_each_candidate]. unfold bind.
    destruct (process_candidate_sent rt self c results w) as (l1 & H1).
    destruct (process_candidate rt self c results w) as [[rs|e] w1]; cbn [snd] in *.
    + destruct (IH rs w1) as (l2 & H2). exists (l1 ++ l2)%list.
      rewrite H2, H1, app_assoc. reflexivity.
    + exists l1. exact H1.
Qed.

(** The first request of a lookup without a usable hint is the search, by
    name only. *)
Lemma find_without_code_sent rt self company_name w :
  exists later,
    sent (snd (find_company_controllers rt self company_name VNone w))
    = (sent w ++ request_of self "companies/search" (Some [("q", company_name)]) :: later)%list.
Proof.
  unfold find_company_controllers. cbn [jurisdiction_code_of truthy]. rewrite bind_ret.
  unfold bind at 1.
  pose proof (search_companies_sent rt self company_name VNone w) as Hs.
  cbn [search_params truthy] in Hs.
  destruct (search_companies rt self company_name VNone w) as [[companies|e] w1];
    cbn [snd] in Hs.
  - destruct (truthy companies); cbn [negb].
    + unfold bind at 1.
      destruct (py_first3 companies w1) as [[top|e] w2] eqn:Etop.
      * assert (w2 = w1) by (destruct companies; inversion Etop; reflexivity). subst w2.
        unfold bind.
        destruct (for_each_candidate_sent rt self top [] w1) as (later & Hl).
        exists later.
        destruct (for_each_candidate rt self top [] w1) as [[rs|e] w3]; cbn [snd ret] in *;
          rewrite Hl, Hs, <- app_assoc; reflexivity.
      * assert (w2 = w1) by (destruct companies; inversion Etop; reflexivity). subst w2.
        exists []. cbn [snd]. exact Hs.
    + exists []. cbn [snd ret]. exact Hs.
  - exists []. exact Hs.
Qed.

(** C5. Resolution of a jurisdiction hint is case-insensitive over the
    table: "CA", "ca" and "California" all resolve to "us_ca", and two
    hints with the same lower-case form resolve alike.  A hint the table
    does not hold ("unknown"), [None] and the empty string resolve to
    [None]; resolution of a str or of [None] never raises, and with [None]
    for a code the search is made by name only. *)
Theorem jurisdiction_resolution :
  (resolve (VStr "CA") = Ok (VStr "us_ca") /\
   resolve (VStr "ca") = Ok (VStr "us_ca") /\
   resolve (VStr "California") = Ok (VStr "us_ca")) /\
  (resolve (VStr "unknown") = Ok VNone /\
   resolve VNone = Ok VNone /\
   resolve (VStr "") = Ok VNone) /\
  (forall s t, lower s = lower t -> resolve (VStr s) = resolve (VStr t)) /\
  (forall s, dict_get state_codes (lower s) = None -> resolve (VStr s) = Ok VNone) /\
  (forall s, exists code, resolve (VStr s) = Ok code) /\
  (forall query, search_params query VNone = [("q", query)]) /\
  (forall rt self company_name s w,
     dict_get state_codes (lower s) = None ->
     find_company_controllers rt self company_name (VStr s) w
     = find_company_controllers rt self company_name VNone w).
Proof.
  split; [repeat split|]. split; [repeat split|].
  split; [|split; [|split; [|split]]].
  - intros s t H. rewrite !resolve_str, H. reflexivity.
  - intros s H. rewrite resolve_str. unfold field_of. rewrite H. reflexivity.
  - intros s. rewrite resolve_str. eexists. reflexivity.
  - reflexivity.
  - intros rt self company_name s w. apply find_unknown_hint.
Qed.

(** C10. A hint whose lower-case form is not a key of the table, a registry
    code such as "us_ca" included, resolves to [None]: the lookup is the
    lookup without a hint, and its first request is the search by name
    only, with no [jurisdiction_code] parameter. *)
Theorem registry_code_hint_is_ignored rt self company_name s w :
  dict_get state_codes (lower s) = None ->
  resolve (VStr s) = Ok VNone /\
  find_company_controllers rt self company_name (VStr s) w
  = find_company_controllers rt self company_name VNone w /\
  (exists later,
     sent (snd (find_company_controllers rt self company_name (VStr s) w))
     = (sent w ++ request_of self "companies/search" (Some [("q", company_name)]) :: later)%list) /\
  dict_get (req_params (request_of self "companies/search" (Some [("q", company_name)])))
    "jurisdiction_code" = None.
Proof.
  intros H. split; [|split; [|split]].
  - rewrite resolve_str. unfold field_of. rewrite H. reflexivity.
  - apply find_unknown_hint, H.
  - rewrite (find_unknown_hint _ _ _ _ _ H). apply find_without_code_sent.
  - unfold request_of. cbn [req_params]. destruct (truthy (api_token self)); reflexivity.
Qed.

Lemma registry_code_hint_is_ignored_witness :
  dict_get state_codes (lower "us_ca") = None /\
  resolve (VStr "us_ca") = Ok VNone /\
  find_company_controllers (registry_without_officers complete_hits) demo_agent
    (VStr "ACME") (VStr "us_ca") fresh_world
  = find_company_controllers (registry_without_officers complete_hits) demo_agent
      (VStr "ACME") VNone fresh_world.
Proof.
  split; [reflexivity|].
  destruct (registry_code_hint_is_ignored (registry_without_officers complete_hits) demo_agent
              (VStr "ACME") "us_ca" fresh_world) as (Hcode & Hsame & _); [reflexivity|].
  split; [exact Hcode | exact Hsame].
Defined.

(** C9. For a request body that is a JSON object, POST /api/search replies
    400 with [{error: "Company name is required"}] when the body has no
    company name (the empty object included); otherwise, whenever
    [find_company_controllers] returns a result, it replies 200 with that
    result, in particular with status [not_found] when the search finds
    nothing, and it does reply whenever the hint resolves and the search
    step returns a list. *)
Theorem search_endpoint_replies rt agent d w :
  (truthy (field_of d "company_name") = false ->
   search_company rt agent (VDict d) w
   = (Ok (mkReply (VDict [("error", VStr "Company name is required")]) 400), w)) /\
  (truthy (field_of d "company_name") = true ->
   forall r w',
     find_company_controllers rt agent (field_of d "company_name") (field_of d "jurisdiction") w
     = (Ok r, w') ->
     search_company rt agent (VDict d) w = (Ok (mkReply r 200), w')) /\
  (truthy (field_of d "company_name") = true ->
   forall code w1,
     resolve (field_of d "jurisdiction") = Ok code ->
     search_companies rt agent (field_of d "company_name") code w = (Ok (VList []), w1) ->
     search_company rt agent (VDict d) w
     = (Ok (mkReply (not_found_result rt (field_of d "company_name")) 200), w1)) /\
  (truthy (field_of d "company_name") = true ->
   forall code hits w1,
     resolve (field_of d "jurisdiction") = Ok code ->
     search_companies rt agent (field_of d "company_name") code w = (Ok (VList hits), w1) ->
     exists r w', search_company rt agent (VDict d) w = (Ok (mkReply r 200), w')).
Proof.
  assert (Hrun : forall r w',
             truthy (field_of d "company_name") = true ->
             find_company_controllers rt agent (field_of d "company_name")
               (field_of d "jurisdiction") w = (Ok r, w') ->
             search_company rt agent (VDict d) w = (Ok (mkReply r 200), w')).
  { intros r w' Ht H. unfold search_company, py_get. rewrite !bind_ret.
    fold (field_of d "company_name"). fold (field_of d "jurisdiction").
    rewrite Ht. cbn [negb]. rewrite (bind_Ok _ _ _ _ _ H). reflexivity. }
  split; [|split; [|split]].
  - intros Hf. unfold search_company, py_get. rewrite !bind_ret.
    fold (field_of d "company_name"). rewrite Hf. reflexivity.
  - intros Ht r w'. apply Hrun, Ht.
  - intros Ht code w1 Hcode Hsearch. apply Hrun; [exact Ht|].
    unfold find_company_controllers.
    rewrite (bind_Ok _ _ _ _ _ (eq_trans (jurisdiction_code_of_resolve _ w)
                                         (f_equal (fun o => (o, w)) Hcode))).
    rewrite (bind_Ok _ _ _ _ _ Hsearch). reflexivity.
  - intros Ht code hits w1 Hcode Hsearch.
    destruct (find_company_controllers_returns _ _ _ _ _ _ _ _ Hcode Hsearch) as (r & w' & H).
    exists r, w'. apply Hrun; assumption.
Qed.

Lemma search_endpoint_replies_witness :
  search_company empty_registry demo_agent (VDict []) fresh_world
  = (Ok (mkReply (VDict [("error", VStr "Company name is required")]) 400), fresh_world) /\
  search_company empty_registry demo_agent (VDict [("company_name", VStr "X")]) fresh_world
  = (Ok (mkReply (returned empty_run) 200), snd empty_run) /\
  status_of (returned empty_run) = Some (VStr "not_found").
Proof.
  split; [|split].
  - apply (proj1 (search_endpoint_replies empty_registry demo_agent [] fresh_world)).
    reflexivity.
  - apply (proj1 (proj2 (search_endpoint_replies empty_registry demo_agent
                           [("company_name", VStr "X")] fresh_world)));
      [reflexivity | vm_compute; reflexivity].
  - reflexivity.
Defined.

(** ** Where a lookup raises *)

(** The lookup is written for a hint that is a str or [None]: any other
    truthy hint has no [lower] method, and the lookup raises before it
    sends anything. *)
Lemma non_string_hint_raises rt self company_name hint w :
  truthy hint = true ->
  (forall s, hint <> VStr s) ->
  exists msg,
    find_company_controllers rt self company_name hint w = (Raise (AttributeError msg), w).
Proof.
  intros Ht Hs. unfold find_company_controllers, jurisdiction_code_of. rewrite Ht.
  destruct hint as [| b | z | f | s | l | d]; try (eexists; reflexivity).
  exfalso. apply (Hs s). reflexivity.
Qed.

(** So does the handler of POST /api/search, which passes the hint on as
    it came. *)
Example numeric_jurisdiction_raises :
  search_company empty_registry demo_agent
    (VDict [("company_name", VStr "X"); ("jurisdiction", VInt 5)]) fresh_world
  = (Raise (AttributeError "'int' object has no attribute 'lower'"), fresh_world).
Proof. reflexivity. Qed.

(** A search body that is no container at all makes [search_companies],
    and with it the lookup, raise on the test for an ["error"] key. *)
Example bare_number_body_raises :
  fst (find_company_controllers registry_of_numbers demo_agent (VStr "X") VNone fresh_world)
  = Raise (TypeError "argument of type 'int' is not iterable").
Proof. reflexivity. Qed.

(** * More of the code *)

(** ** Dictionaries *)

Lemma dict_get_set_same d k v : dict_get (dict_set d k v) k = Some v.
Proof.
  induction d as [|[k' v'] d IH]; cbn.
  - rewrite String.eqb_refl. reflexivity.
  - destruct (k' =? k) eqn:E; cbn.
    + rewrite String.eqb_refl. reflexivity.
    + rewrite E. exact IH.
Qed.

Lemma dict_get_set_other d k v k' : k' <> k -> dict_get (dict_set d k v) k' = dict_get d k'.
Proof.
  intros Hne. induction d as [|[k0 v0] d IH]; cbn.
  - destruct (k =? k') eqn:E; [apply String.eqb_eq in E; congruence | reflexivity].
  - destruct (k0 =? k) eqn:E; cbn.
    + apply String.eqb_eq in E. subst k0.
      destruct (k =? k') eqn:E'; [apply String.eqb_eq in E'; congruence | reflexivity].
    + destruct (k0 =? k'); [reflexivity | exact IH].
Qed.

(** ** _make_request, continued *)

(** X1. Each call of [_make_request] sends exactly one request, to the base
    URL joined with the endpoint by a slash.  The request carries the
    caller's parameters: with a token configured, [api_token] is set to it
    and every other key is as the caller gave it; with none, the parameters
    are the caller's unchanged. *)
Theorem make_request_sends_one_request rt self endpoint params w :
  exists rq,
    sent (snd (_make_request rt self endpoint params w)) = (sent w ++ [rq])%list /\
    req_url rq = base_url self ++ "/" ++ endpoint /\
    (truthy (api_token self) = true ->
     dict_get (req_params rq) "api_token" = Some (api_token self)) /\
    (truthy (api_token self) = false ->
     req_params rq = match params with Some p => p | None => [] end) /\
    (forall k, k <> "api_token" ->
               dict_get (req_params rq) k
               = dict_get (match params with Some p => p | None => [] end) k).
Proof.
  exists (request_of self endpoint params).
  split; [apply make_request_sent|]. split; [reflexivity|].
  unfold request_of. cbn [req_params].
  destruct (truthy (api_token self)).
  - split; [intros _; apply dict_get_set_same|]. split; [discriminate|].
    intros k Hk. apply dict_get_set_other, Hk.
  - split; [discriminate|]. split; reflexivity.
Qed.

(** X2. When the registry answers with a status that is not 4xx or 5xx and
    a body that decodes, [_make_request] returns the decoded body as it is
    and prints nothing. *)
Theorem make_request_returns_body rt self endpoint params w r v :
  upstream rt (length (sent w)) (request_of self endpoint params) = Responded r ->
  http_error r = false ->
  json_body r = inl v ->
  _make_request rt self endpoint params w
  = (Ok v, mkWorld (sent w ++ [request_of self endpoint params]) (stdout w)).
Proof.
  apply make_request_answered.
Qed.

Lemma make_request_returns_body_witness :
  _make_request details_registry demo_agent "companies/us_ca/C1" None fresh_world
  = (Ok (VDict [("results", VDict [("company", sample_company)])]),
     mkWorld [request_of demo_agent "companies/us_ca/C1" None] []).
Proof.
  apply (make_request_returns_body details_registry demo_agent "companies/us_ca/C1" None
           fresh_world
           (ok_response (VDict [("results", VDict [("company", sample_company)])])));
    reflexivity.
Defined.

(** X3. When the transport fails, the error dictionary [_make_request]
    returns holds the very message it prints after "Error making request: ";
    a second line, "Response content: " and the body text, follows exactly
    when the exception carries a response, as for a 4xx or 5xx status. *)
Theorem make_request_logs_failure rt self endpoint params w :
  transport_failed (upstream rt (length (sent w)) (request_of self endpoint params)) = true ->
  exists msg more,
    _make_request rt self endpoint params w
    = (Ok (VDict [("error", VStr msg)]),
       mkWorld (sent w ++ [request_of self endpoint params])
         (stdout w ++ ("Error making request: " ++ msg) :: more)) /\
    match upstream rt (length (sent w)) (request_of self endpoint params) with
    | RequestFailed _ None => more = []
    | RequestFailed _ (Some r) => more = ["Response content: " ++ text r]
    | Crashed _ => False
    | Responded r =>
        if http_error r then more = ["Response content: " ++ text r] else more = []
    end.
Proof.
  unfold _make_request, try_except, bind, requests_get, raise_for_status, response_json.
  fold (request_of self endpoint params).
  unfold transport_failed, http_error, print, ret, raise.
  destruct (upstream rt (length (sent w)) (request_of self endpoint params))
    as [msg resp | e | r]; cbn -[append Z.leb Z.ltb]; intros Hfail.
  - destruct resp as [r|]; cbn -[append]; eexists; eexists;
      (split; [rewrite <- ?app_assoc; reflexivity | reflexivity]).
  - discriminate Hfail.
  - destruct ((400 <=? status_code r) && (status_code r <? 500))%Z eqn:E4;
      [|destruct ((500 <=? status_code r) && (status_code r <? 600))%Z eqn:E5];
      cbn -[append Z.leb Z.ltb].
    + replace ((400 <=? status_code r) && (status_code r <? 600))%Z with true by lia.
      eexists; eexists. split; [rewrite <- ?app_assoc; reflexivity | reflexivity].
    + replace ((400 <=? status_code r) && (status_code r <? 600))%Z with true by lia.
      eexists; eexists. split; [rewrite <- ?app_assoc; reflexivity | reflexivity].
    + replace ((400 <=? status_code r) && (status_code r <? 600))%Z with false in * by lia.
      destruct (json_body r) as [v|[msg|e]] eqn:Ej; cbn -[append Z.leb Z.ltb] in *.
      * discriminate Hfail.
      * eexists; eexists. split; [rewrite <- ?app_assoc; reflexivity | reflexivity].
      * discriminate Hfail.
Qed.

Lemma make_request_logs_failure_witness :
  _make_request (registry_without_officers five_hits) demo_agent "companies/us_ca/C1/officers"
    None searched_world
  = (Ok (VDict [("error", VStr "404 Client Error: Not Found for url: ")]),
     mkWorld (sent searched_world ++ [request_of demo_agent "companies/us_ca/C1/officers" None])
       (stdout searched_world
        ++ ["Error making request: 404 Client Error: Not Found for url: ";
            "Response content: {}"])).
Proof.
  destruct (make_request_logs_failure (registry_without_officers five_hits) demo_agent
              "companies/us_ca/C1/officers" None searched_world) as (msg & more & Hrun & Hmore);
    [reflexivity|].
  cbn in Hmore. subst more. rewrite Hrun.
  assert (Hmsg : msg = "404 Client Error: Not Found for url: ").
  { vm_compute in Hrun. inversion Hrun. reflexivity. }
  subst msg. reflexivity.
Defined.

(** ** The three lookups, continued *)

Lemma get_company_details_eq rt self j n :
  get_company_details rt self j n
  = (response <- _make_request rt self (details_endpoint rt j n) None ;;
     results_field "company" (VDict []) response).
Proof. reflexivity. Qed.

(** Of a JSON object, the lookups read [results] and then the field; an
    ["error"] key, a missing level and a level that is no object all give
    the empty value. *)
Lemma results_field_object field empty d w :
  results_field field empty (VDict d) w
  = (Ok (if dict_mem d "error" then empty
         else match results_path d field with Some x => x | None => empty end), w).
Proof.
  unfold results_field, bind, try_except, py_in, py_get, ret, raise, results_path.
  destruct (dict_mem d "error"); cbn -[append]; [reflexivity|].
  destruct (dict_get d "results") as [[| b | z | f | s | l | d']|]; reflexivity.
Qed.

(** A body that is a list or a str reads as the empty value; a body that
    is [null], a boolean or a number has no [in], and the [TypeError] is
    raised outside every [try]. *)
Lemma results_field_not_object field empty v w :
  (forall d, v <> VDict d) ->
  results_field field empty v w
  = (match v with
     | VList _ | VStr _ => Ok empty
     | _ => Raise (TypeError ("argument of type '" ++ type_name v ++ "' is not iterable"))
     end, w).
Proof.
  intros Hd.
  unfold results_field, bind, try_except, py_in, py_get, ret, raise.
  destruct v as [| b | z | f | s | l | d]; cbn -[append]; try reflexivity.
  - destruct (str_contains s "error"); reflexivity.
  - destruct (existsb _ l); reflexivity.
  - exfalso. apply (Hd d). reflexivity.
Qed.

(** A lookup whose request is answered with a decoded body. *)
Lemma lookup_answered rt self endpoint params field empty w r v :
  upstream rt (length (sent w)) (request_of self endpoint params) = Responded r ->
  http_error r = false ->
  json_body r = inl v ->
  (response <- _make_request rt self endpoint params ;; results_field field empty response) w
  = results_field field empty v
      (mkWorld (sent w ++ [request_of self endpoint params]) (stdout w)).
Proof.
  intros Hr Hs Hj.
  rewrite (bind_Ok _ _ _ _ _ (make_request_answered _ _ _ _ _ _ _ Hr Hs Hj)). reflexivity.
Qed.

(** X4. When the search request is answered with a JSON object,
    [search_companies] returns [body["results"]["companies"]] as it is,
    provided the body has no ["error"] key and is that deep; a body with an
    ["error"] key, without [results], with a [results] that is no object, or
    without [companies] gives the empty list.  Nothing is printed. *)
Theorem search_companies_reads_object rt self query code w r d :
  upstream rt (length (sent w))
    (request_of self "companies/search" (Some (search_params query code))) = Responded r ->
  http_error r = false ->
  json_body r = inl (VDict d) ->
  search_companies rt self query code w
  = (Ok (if dict_mem d "error" then VList []
         else match results_path d "companies" with Some hits => hits | None => VList [] end),
     mkWorld (sent w ++ [request_of self "companies/search" (Some (search_params query code))])
       (stdout w)).
Proof.
  intros Hr Hs Hj. rewrite search_companies_eq.
  rewrite (lookup_answered _ _ _ _ _ _ _ _ _ Hr Hs Hj). apply results_field_object.
Qed.

Lemma search_companies_reads_object_witness :
  search_companies (registry_without_officers five_hits) demo_agent (VStr "ACME")
    (VStr "us_ca") fresh_world
  = (Ok (VList five_hits), searched_world).
Proof.
  rewrite (search_companies_reads_object (registry_without_officers five_hits) demo_agent
             (VStr "ACME") (VStr "us_ca") fresh_world (search_response five_hits)
             [("results", VDict [("companies", VList five_hits)])]);
    reflexivity.
Defined.

(** X5. When the search request is answered with a body that decodes to
    something other than an object, [search_companies] returns the empty
    list for a list or a str, and raises a [TypeError] for [null], a boolean
    or a number: the test for an ["error"] key stands outside the [try]. *)
Theorem search_companies_not_an_object rt self query code w r v :
  upstream rt (length (sent w))
    (request_of self "companies/search" (Some (search_params query code))) = Responded r ->
  http_error r = false ->
  json_body r = inl v ->
  (forall d, v <> VDict d) ->
  search_companies rt self query code w
  = (match v with
     | VList _ | VStr _ => Ok (VList [])
     | _ => Raise (TypeError ("argument of type '" ++ type_name v ++ "' is not iterable"))
     end,
     mkWorld (sent w ++ [request_of self "companies/search" (Some (search_params query code))])
       (stdout w)).
Proof.
  intros Hr Hs Hj Hd. rewrite search_companies_eq.
  rewrite (lookup_answered _ _ _ _ _ _ _ _ _ Hr Hs Hj). apply results_field_not_object, Hd.
Qed.

Lemma search_companies_not_an_object_witness :
  fst (search_companies registry_of_numbers demo_agent (VStr "X") VNone fresh_world)
  = Raise (TypeError "argument of type 'int' is not iterable").
Proof.
  rewrite (search_companies_not_an_object registry_of_numbers demo_agent (VStr "X") VNone
             fresh_world (ok_response (VInt 5)) (VInt 5));
    try reflexivity.
  intros d. discriminate.
Defined.

(** X6. [search_companies] sends one request, to the search endpoint, whose
    parameters are [q], the query; [jurisdiction_code], the code, exactly
    when the code is truthy; [api_token] when a token is configured; and no
    other key. *)
Theorem search_request_parameters rt self query code w :
  exists rq,
    sent (snd (search_companies rt self query code w)) = (sent w ++ [rq])%list /\
    req_url rq = base_url self ++ "/companies/search" /\
    dict_get (req_params rq) "q" = Some query /\
    dict_get (req_params rq) "jurisdiction_code" = (if truthy code then Some code else None) /\
    (forall k, k <> "q" -> k <> "jurisdiction_code" -> k <> "api_token" ->
               dict_get (req_params rq) k = None).
Proof.
  exists (search_request self query code). unfold search_request.
  split; [apply search_companies_sent|]. split; [reflexivity|].
  unfold request_of. cbn [req_params].
  assert (Hq : dict_get (search_params query code) "q" = Some query).
  { unfold search_params. destruct (truthy code); [|reflexivity].
    rewrite dict_get_set_other by discriminate. reflexivity. }
  assert (Hj : dict_get (search_params query code) "jurisdiction_code"
               = if truthy code then Some code else None).
  { unfold search_params. destruct (truthy code); [apply dict_get_set_same | reflexivity]. }
  assert (Hk : forall k, k <> "q" -> k <> "jurisdiction_code" ->
                         dict_get (search_params query code) k = None).
  { intros k H1 H2. unfold search_params. destruct (truthy code).
    - rewrite dict_get_set_other by assumption. cbn [dict_get].
      destruct ("q" =? k) eqn:E; [apply String.eqb_eq in E; congruence | reflexivity].
    - cbn [dict_get].
      destruct ("q" =? k) eqn:E; [apply String.eqb_eq in E; congruence | reflexivity]. }
  destruct (truthy (api_token self)).
  - rewrite !dict_get_set_other by discriminate. split; [exact Hq|]. split; [exact Hj|].
    intros k H1 H2 H3. rewrite dict_get_set_other by assumption. apply Hk; assumption.
  - split; [exact Hq|]. split; [exact Hj|]. intros k H1 H2 _. apply Hk; assumption.
Qed.

(** X7. [get_company_details], for a jurisdiction and a number that are
    strs, asks for "companies/<jurisdiction>/<number>".  A failed request
    gives the empty dict; a JSON object gives [body["results"]["company"]]
    as it is when the body has no ["error"] key and is that deep, and the
    empty dict otherwise. *)
Theorem get_company_details_reads rt self j n w :
  details_endpoint rt (VStr j) (VStr n) = "companies/" ++ j ++ "/" ++ n /\
  (transport_failed
     (upstream rt (length (sent w)) (request_of self ("companies/" ++ j ++ "/" ++ n) None))
   = true ->
   exists w1, get_company_details rt self (VStr j) (VStr n) w = (Ok (VDict []), w1)) /\
  (forall r d,
     upstream rt (length (sent w)) (request_of self ("companies/" ++ j ++ "/" ++ n) None)
     = Responded r ->
     http_error r = false ->
     json_body r = inl (VDict d) ->
     get_company_details rt self (VStr j) (VStr n) w
     = (Ok (if dict_mem d "error" then VDict []
            else match results_path d "company" with Some c => c | None => VDict [] end),
        mkWorld (sent w ++ [request_of self ("companies/" ++ j ++ "/" ++ n) None]) (stdout w))).
Proof.
  split; [reflexivity|]. split.
  - intros Hfail. rewrite get_company_details_eq.
    destruct (lookup_failed rt self (details_endpoint rt (VStr j) (VStr n)) None "company"
                (VDict []) w Hfail) as (out & H).
    eexists. exact H.
  - intros r d Hr Hs Hj. rewrite get_company_details_eq.
    rewrite (lookup_answered rt self (details_endpoint rt (VStr j) (VStr n)) None "company"
               (VDict []) w r (VDict d) Hr Hs Hj).
    apply results_field_object.
Qed.

Lemma get_company_details_reads_witness :
  get_company_details details_registry demo_agent (VStr "us_ca") (VStr "C1") fresh_world
  = (Ok sample_company, mkWorld [request_of demo_agent "companies/us_ca/C1" None] []) /\
  exists w1,
    get_company_details registry_down demo_agent (VStr "us_ca") (VStr "C1") fresh_world
    = (Ok (VDict []), w1).
Proof.
  destruct (get_company_details_reads details_registry demo_agent "us_ca" "C1" fresh_world)
    as (_ & _ & Hread).
  destruct (get_company_details_reads registry_down demo_agent "us_ca" "C1" fresh_world)
    as (_ & Hfail & _).
  split.
  - rewrite (Hread (ok_response (VDict [("results", VDict [("company", sample_company)])]))
               [("results", VDict [("company", sample_company)])]); reflexivity.
  - apply Hfail. reflexivity.
Defined.

(** X8. When the officers request is answered with a JSON object,
    [get_company_officers] returns [body["results"]["officers"]] as it is,
    provided the body has no ["error"] key and is that deep, and the empty
    list otherwise; for a jurisdiction and a number that are strs the
    request goes to "companies/<jurisdiction>/<number>/officers". *)
Theorem get_company_officers_reads rt self j n w r d :
  upstream rt (length (sent w)) (request_of self (officers_endpoint rt j n) None) = Responded r ->
  http_error r = false ->
  json_body r = inl (VDict d) ->
  get_company_officers rt self j n w
  = (Ok (if dict_mem d "error" then VList []
         else match results_path d "officers" with Some o => o | None => VList [] end),
     mkWorld (sent w ++ [request_of self (officers_endpoint rt j n) None]) (stdout w)) /\
  (forall sj sn, j = VStr sj -> n = VStr sn ->
                 officers_endpoint rt j n = "companies/" ++ sj ++ "/" ++ sn ++ "/officers").
Proof.
  intros Hr Hs Hj. split.
  - rewrite get_company_officers_eq.
    rewrite (lookup_answered _ _ _ _ _ _ _ _ _ Hr Hs Hj). apply results_field_object.
  - intros sj sn -> ->. reflexivity.
Qed.

Lemma get_company_officers_reads_witness :
  get_company_officers details_registry demo_agent (VStr "us_ca") (VStr "C1") searched_world
  = (Ok sample_officers,
     mkWorld (sent searched_world ++ [request_of demo_agent "companies/us_ca/C1/officers" None])
       (stdout searched_world)).
Proof.
  apply (get_company_officers_reads details_registry demo_agent (VStr "us_ca") (VStr "C1")
           searched_world
           (ok_response (VDict [("results", VDict [("officers", sample_officers)])]))
           [("results", VDict [("officers", sample_officers)])]);
    reflexivity.
Defined.

(** ** The requests of a lookup, exactly *)

Lemma get_company_officers_trace rt self j n w :
  sent (snd (get_company_officers rt self j n w))
  = (sent w ++ [request_of self (officers_endpoint rt j n) None])%list.
Proof. rewrite get_company_officers_eq. apply lookup_sent. Qed.

(** One iteration asks for officers exactly when the hit has a company
    record with both fields, and sends nothing else. *)
Lemma process_candidate_trace rt self company_data results w :
  sent (snd (process_candidate rt self company_data results w))
  = (sent w ++ (if wants_officers company_data
                then [officers_request rt self company_data] else []))%list.
Proof.
  rewrite process_candidate_eq. unfold wants_officers, officers_request.
  destruct (candidate_company company_data) as [company|] eqn:E.
  - rewrite (candidate_body_company _ _ _ _ _ _ E).
    destruct (identified company).
    + pose proof (get_company_officers_trace rt self (field_of company "jurisdiction_code")
                    (field_of company "company_number") w) as Ht.
      unfold bind, ret.
      destruct (get_company_officers _ _ _ _ w) as [[o|e] w1]; exact Ht.
    + cbn [snd]. rewrite !app_nil_r. reflexivity.
  - destruct (candidate_body_no_company rt self company_data w E) as [msg H].
    rewrite H. cbn [snd sent]. rewrite !app_nil_r. reflexivity.
Qed.

Lemma for_each_candidate_trace rt self candidates : forall results w,
  sent (snd (for_each_candidate rt self candidates results w))
  = (sent w ++ map (officers_request rt self) (filter wants_officers candidates))%list.
Proof.
  induction candidates as [|c cs IH]; intros results w.
  - cbn. rewrite app_nil_r. reflexivity.
  - cbn [for_each_candidate filter]. unfold bind.
    pose proof (process_candidate_trace rt self c results w) as H1.
    destruct (process_candidate rt self c results w) as [[rs|e] w1] eqn:E; cbn [snd] in *.
    + rewrite IH, H1. destruct (wants_officers c); cbn [map];
        rewrite <- app_assoc; reflexivity.
    + rewrite process_candidate_eq in E.
      destruct (candidate_body rt self c [] w) as [[new|e'] w2]; discriminate E.
Qed.

(** Whatever happens, a lookup sends at most four requests. *)
Lemma find_company_controllers_budget rt self company_name hint w :
  length (sent (snd (find_company_controllers rt self company_name hint w)))
  <= length (sent w) + 4.
Proof.
  unfold find_company_controllers. unfold bind at 1.
  rewrite jurisdiction_code_of_resolve.
  destruct (resolve hint) as [code|e]; [|cbn [snd]; lia].
  unfold bind at 1.
  pose proof (search_companies_sent rt self company_name code w) as Hs.
  destruct (search_companies rt self company_name code w) as [[companies|e] w1];
    cbn [snd] in Hs; [|cbn [snd]; rewrite Hs, length_app; cbn; lia].
  destruct (truthy companies) eqn:Ht; cbn [negb];
    [|cbn [snd ret]; rewrite Hs, length_app; cbn; lia].
  unfold bind at 1.
  destruct (py_first3 companies w1) as [[top|e] w2] eqn:Etop.
  - destruct (py_first3_Ok _ _ _ _ Ht Etop) as (_ & -> & ->).
    unfold bind.
    pose proof (for_each_candidate_trace rt self (firstn 3 (candidates_of companies)) [] w1)
      as Hl.
    pose proof (filter_length_le wants_officers (firstn 3 (candidates_of companies))) as Hf.
    pose proof (firstn_le_length 3 (candidates_of companies)) as Hn.
    destruct (for_each_candidate rt self _ [] w1) as [[rs|e] w3]; cbn [snd ret] in *;
      rewrite Hl, Hs, !length_app, length_map; cbn [length]; lia.
  - assert (w2 = w1) by (destruct companies; inversion Etop; reflexivity). subst w2.
    cbn [snd]. rewrite Hs, length_app. cbn. lia.
Qed.

(** X9. A lookup that returns has sent the search request and then, in the
    order of the hits, one officers request for each of the first three
    hits that has a company record with both fields, and nothing else: never
    more than four requests, and one only when the search finds nothing.
    Even a lookup that raises has sent at most four. *)
Theorem lookup_requests rt self company_name hint w :
  (forall r w',
     find_company_controllers rt self company_name hint w = (Ok r, w') ->
     exists code companies w1,
       resolve hint = Ok code /\
       search_companies rt self company_name code w = (Ok companies, w1) /\
       sent w'
       = (sent w ++ search_request self company_name code
            :: map (officers_request rt self)
                 (filter wants_officers (firstn 3 (candidates_of companies))))%list /\
       (candidates_of companies = [] ->
        sent w' = (sent w ++ [search_request self company_name code])%list)) /\
  length (sent (snd (find_company_controllers rt self company_name hint w)))
  <= length (sent w) + 4.
Proof.
  split; [|apply find_company_controllers_budget].
  intros r w' H. apply find_company_controllers_inv in H.
  destruct H as (code & companies & w1 & Hcode & Hsearch & H).
  exists code, companies, w1. split; [assumption|]. split; [assumption|].
  pose proof (search_companies_sent rt self company_name code w) as Hs.
  rewrite Hsearch in Hs. cbn [snd] in Hs.
  destruct H as [(Hnone & _ & ->) | (Hsome & results & Hloop & _)].
  - rewrite Hnone. cbn. split; [exact Hs | intros _; exact Hs].
  - pose proof (for_each_candidate_trace rt self (firstn 3 (candidates_of companies)) [] w1)
      as Hl.
    rewrite Hloop in Hl. cbn [snd] in Hl. split; [|congruence].
    rewrite Hl, Hs, <- app_assoc. reflexivity.
Qed.

Lemma lookup_requests_witness :
  find_company_controllers (registry_without_officers five_hits) demo_agent
    (VStr "ACME") (VStr "CA") fresh_world = mixed_run /\
  sent (snd mixed_run)
  = [search_request demo_agent (VStr "ACME") (VStr "us_ca");
     request_of demo_agent "companies/us_ca/C1/officers" None].
Proof.
  split; [vm_compute; reflexivity|].
  destruct (proj1 (lookup_requests (registry_without_officers five_hits) demo_agent
                     (VStr "ACME") (VStr "CA") fresh_world)
              (returned mixed_run) (snd mixed_run))
    as (code & companies & w1 & Hcode & Hsearch & Hsent & _);
    [vm_compute; reflexivity|].
  vm_compute in Hcode. inversion Hcode; subst code.
  vm_compute in Hsearch. inversion Hsearch; subst companies w1.
  rewrite Hsent. vm_compute. reflexivity.
Defined.

(** ** The entries of a lookup *)

Lemma candidate_body_from rt self company_data w new w' :
  candidate_body rt self company_data [] w = (Ok new, w') ->
  (new = [] /\ w' = w) \/ (exists entry, new = [entry] /\ entry_from company_data entry).
Proof.
  destruct (candidate_company company_data) as [company|] eqn:E.
  - rewrite (candidate_body_company _ _ _ _ _ _ E).
    destruct (identified company) eqn:Ei.
    + unfold bind, ret. destruct (get_company_officers _ _ _ _ w) as [[o|e] w1]; intros H;
        inversion H; subst. right. eexists. split; [reflexivity|].
      exists company, o. repeat split; assumption.
    + intros H. inversion H. left. split; reflexivity.
  - destruct (candidate_body_no_company rt self company_data w E) as [msg H].
    rewrite H. discriminate.
Qed.

Lemma for_each_candidate_subseq rt self candidates : forall w results w',
  for_each_candidate rt self candidates [] w = (Ok results, w') ->
  exists picked, subseq picked candidates /\ Forall2 entry_from picked results.
Proof.
  induction candidates as [|c cs IH]; intros w results w' H.
  - inversion H. exists []. split; constructor.
  - cbn [for_each_candidate] in H. unfold bind in H. rewrite process_candidate_eq in H.
    destruct (candidate_body rt self c [] w) as [[new|e] w1] eqn:E.
    + rewrite for_each_candidate_acc in H.
      destruct (for_each_candidate rt self cs [] w1) as [[rest|e] w2] eqn:Erest;
        inversion H; subst.
      destruct (IH _ _ _ Erest) as (picked & Hsub & Hall).
      destruct (candidate_body_from _ _ _ _ _ _ E) as [[-> _] | (entry & -> & He)].
      * exists picked. split; [constructor; assumption | exact Hall].
      * exists (c :: picked). split; [constructor; assumption | constructor; assumption].
    + destruct (IH _ _ _ H) as (picked & Hsub & Hall).
      exists picked. split; [constructor; assumption | exact Hall].
Qed.

(** ** What the hits and the answers determine *)

Lemma results_field_reads field empty body w :
  results_field field empty body w = (read_body field empty body, w).
Proof.
  destruct body as [| b | z | f | s0 | l | d];
    try (apply results_field_not_object; intros d'; discriminate).
  apply results_field_object.
Qed.

Lemma escaping_answer field empty t e :
  escapes t = Some e -> read_answer field empty t = Raise (LibraryError e).
Proof.
  unfold escapes, read_answer. destruct t as [msg resp | e' | r].
  - discriminate.
  - intros H. inversion H. reflexivity.
  - destruct (http_error r); [discriminate|].
    destruct (json_body r) as [v|[msg|e']]; try discriminate.
    intros H. inversion H. reflexivity.
Qed.

Lemma failed_answer field empty t :
  transport_failed t = true -> read_answer field empty t = Ok empty.
Proof.
  unfold transport_failed, read_answer. destruct t as [msg resp | e' | r].
  - reflexivity.
  - discriminate.
  - destruct (http_error r); [reflexivity|]. cbn [orb].
    destruct (json_body r) as [v|[msg|e']]; try discriminate. reflexivity.
Qed.

(** The outcome of a lookup is a function of the answer to its request. *)
Lemma lookup_reads rt self endpoint params field empty w :
  fst ((response <- _make_request rt self endpoint params ;;
        results_field field empty response) w)
  = read_answer field empty (upstream rt (length (sent w)) (request_of self endpoint params)).
Proof.
  pose proof (make_request_spec rt self endpoint params w) as H. cbv zeta in H.
  destruct (escapes _) as [e|] eqn:Ee.
  - rewrite (bind_Raise _ _ _ _ _ H), (escaping_answer _ _ _ _ Ee). reflexivity.
  - destruct H as (v & out & Hrun & Herr & Hok). rewrite (bind_Ok _ _ _ _ _ Hrun).
    destruct (transport_failed _) eqn:Et.
    + rewrite (results_field_error _ _ _ _ (Herr eq_refl)), (failed_answer _ _ _ Et).
      reflexivity.
    + destruct (Hok eq_refl) as (r & Hr & Hj & _).
      rewrite results_field_reads. cbn [fst]. rewrite Hr in Et |- *.
      unfold transport_failed in Et. unfold read_answer. rewrite Hj in Et |- *.
      apply orb_false_iff in Et. destruct Et as [-> _]. reflexivity.
Qed.

(** The loop appends exactly the entries the hits and the answers
    determine. *)
Lemma for_each_candidate_expected rt self candidates : forall results w,
  exists w',
    for_each_candidate rt self candidates results w
    = (Ok (results ++ expected_results rt self (length (sent w)) candidates)%list, w').
Proof.
  induction candidates as [|c cs IH]; intros results w.
  - exists w. cbn. rewrite app_nil_r. reflexivity.
  - cbn [for_each_candidate expected_results]. unfold bind at 1.
    rewrite process_candidate_eq.
    destruct (candidate_company c) as [company|] eqn:E.
    + rewrite (candidate_body_company _ _ _ _ _ _ E).
      destruct (identified company) eqn:Ei.
      * pose proof (get_company_officers_trace rt self (field_of company "jurisdiction_code")
                      (field_of company "company_number") w) as Ht.
        pose proof (lookup_reads rt self
                      (officers_endpoint rt (field_of company "jurisdiction_code")
                         (field_of company "company_number")) None "officers" (VList []) w)
          as Hr.
        rewrite <- get_company_officers_eq in Hr.
        unfold officers_for, officers_request. rewrite E, <- Hr.
        unfold bind, ret.
        destruct (get_company_officers _ _ _ _ w) as [[o|e] w1]; cbn [fst snd] in *.
        -- destruct (IH (results ++ [] ++ [entry_of company o])%list w1) as (w' & H).
           exists w'. rewrite H, Ht, length_app. cbn [length app].
           rewrite Nat.add_1_r, <- app_assoc. reflexivity.
        -- destruct (IH results (mkWorld (sent w1)
                                   (stdout w1 ++ ["Error processing company: " ++ exn_str e])))
             as (w' & H).
           exists w'. rewrite H. cbn [sent]. rewrite Ht, length_app. cbn [length].
           rewrite Nat.add_1_r. reflexivity.
      * destruct (IH (results ++ [])%list w) as (w' & H).
        exists w'. rewrite H, app_nil_r. reflexivity.
    + destruct (candidate_body_no_company rt self c w E) as [msg Hraise]. rewrite Hraise.
      destruct (IH results (mkWorld (sent w)
                              (stdout w ++ ["Error processing company: "
                                            ++ exn_str (AttributeError msg)])))
        as (w' & H).
      exists w'. rewrite H. reflexivity.
Qed.

Lemma resolved_head rt self n c rest :
  resolved rt self n (c :: rest) 0 <->
  exists company officers,
    candidate_company c = Some company /\ identified company = true /\
    officers_for rt self n c = Some officers.
Proof.
  unfold resolved. cbn [nth_error firstn filter length]. rewrite Nat.add_0_r. split.
  - intros (c' & company & o & Hk & Hc & Hi & Ho). inversion Hk; subst c'. eauto.
  - intros (company & o & Hc & Hi & Ho). exists c, company, o. auto.
Qed.

Lemma resolved_tail rt self n c rest k :
  resolved rt self n (c :: rest) (S k) <->
  resolved rt self (if wants_officers c then S n else n) rest k.
Proof.
  unfold resolved. cbn [nth_error firstn filter].
  destruct (wants_officers c); cbn [length]; [rewrite Nat.add_succ_r|]; reflexivity.
Qed.

(** Some entry is built exactly when some hit is resolved. *)
Lemma expected_results_resolved rt self hits : forall n,
  expected_results rt self n hits <> [] <-> exists k, resolved rt self n hits k.
Proof.
  induction hits as [|c rest IH]; intros n.
  - cbn. split; [congruence|]. intros (k & c & company & o & Hk & _).
    destruct k; discriminate Hk.
  - assert (Hsplit : (exists k, resolved rt self n (c :: rest) k) <->
                     resolved rt self n (c :: rest) 0 \/
                     exists k, resolved rt self (if wants_officers c then S n else n) rest k).
    { split.
      - intros ([|k] & H); [left; exact H | right; exists k; apply resolved_tail, H].
      - intros [H | (k & H)]; [exists 0; exact H | exists (S k); apply resolved_tail, H]. }
    rewrite Hsplit, resolved_head. cbn [expected_results]. unfold wants_officers.
    destruct (candidate_company c) as [company|] eqn:E.
    + destruct (identified company) eqn:Ei.
      * destruct (officers_for rt self n c) as [o|] eqn:Eo.
        -- split; [intros _; left; eauto | discriminate].
        -- rewrite IH. split; [auto|].
           intros [(company' & o & _ & _ & Ho) | H]; [discriminate Ho | exact H].
      * rewrite IH. split; [auto|].
        intros [(company' & o & Hc & Hi & _) | H]; [|exact H].
        inversion Hc; subst company'. congruence.
    + rewrite IH. split; [auto|].
      intros [(company' & o & Hc & _) | H]; [discriminate Hc | exact H].
Qed.

(** What a lookup that returns was given, and what it made of it. *)
Lemma find_company_controllers_results rt self company_name hint w r w' :
  find_company_controllers rt self company_name hint w = (Ok r, w') ->
  exists code companies w1,
    resolve hint = Ok code /\
    search_companies rt self company_name code w = (Ok companies, w1) /\
    (candidates_of companies = [] ->
     r = not_found_result rt company_name) /\
    (candidates_of companies <> [] ->
     r = found_result rt company_name
           (expected_results rt self (S (length (sent w)))
              (firstn 3 (candidates_of companies)))).
Proof.
  intros H. apply find_company_controllers_inv in H.
  destruct H as (code & companies & w1 & Hcode & Hsearch & H).
  exists code, companies, w1. split; [assumption|]. split; [assumption|].
  destruct H as [(Hnone & -> & _) | (Hsome & results & Hloop & ->)].
  - split; [reflexivity | congruence].
  - split; [congruence|]. intros _.
    destruct (for_each_candidate_expected rt self (firstn 3 (candidates_of companies)) [] w1)
      as (w2 & Hexp).
    rewrite Hloop in Hexp. inversion Hexp as [[Hres Hw]]. cbn [app].
    pose proof (search_companies_sent rt self company_name code w) as Hs.
    rewrite Hsearch in Hs. cbn [snd] in Hs.
    rewrite Hs, length_app. cbn [length]. rewrite Nat.add_1_r. reflexivity.
Qed.

(** ** A hint the table knows *)

Lemma state_codes_values key code :
  dict_get state_codes key = Some code -> code = VStr "us_ca" \/ code = VStr "us_il".
Proof.
  unfold state_codes. cbn [dict_get].
  destruct ("california" =? key); [intros H; inversion H; left; reflexivity|].
  destruct ("ca" =? key); [intros H; inversion H; left; reflexivity|].
  destruct ("illinois" =? key); [intros H; inversion H; right; reflexivity|].
  destruct ("il" =? key); [intros H; inversion H; right; reflexivity|].
  discriminate.
Qed.

(** The first request of a lookup whose hint resolves is the search. *)
Lemma find_first_request rt self company_name hint code w :
  resolve hint = Ok code ->
  exists later,
    sent (snd (find_company_controllers rt self company_name hint w))
    = (sent w ++ search_request self company_name code :: later)%list.
Proof.
  intros Hcode. unfold find_company_controllers.
  rewrite (bind_Ok _ _ _ _ _ (eq_trans (jurisdiction_code_of_resolve hint w)
                                       (f_equal (fun o => (o, w)) Hcode))).
  unfold bind at 1.
  pose proof (search_companies_sent rt self company_name code w) as Hs.
  fold (search_request self company_name code) in Hs.
  destruct (search_companies rt self company_name code w) as [[companies|e] w1];
    cbn [snd] in Hs; [|exists []; exact Hs].
  destruct (truthy companies) eqn:Ht; cbn [negb]; [|exists []; exact Hs].
  unfold bind at 1.
  destruct (py_first3 companies w1) as [[top|e] w2] eqn:Etop.
  - destruct (py_first3_Ok _ _ _ _ Ht Etop) as (_ & _ & ->).
    unfold bind.
    pose proof (for_each_candidate_trace rt self top [] w1) as Hl.
    exists (map (officers_request rt self) (filter wants_officers top)).
    destruct (for_each_candidate rt self top [] w1) as [[rs|e] w3]; cbn [snd ret] in *;
      rewrite Hl, Hs, <- app_assoc; reflexivity.
  - assert (w2 = w1) by (destruct companies; inversion Etop; reflexivity). subst w2.
    exists []. exact Hs.
Qed.

(** X12. A hint whose lower-case form is a key of the table resolves to the
    code the table holds, "us_ca" or "us_il", and the lookup's first request
    is the search with [q] the company name and [jurisdiction_code] that
    code. *)
Theorem known_hint_filters rt self company_name s code w :
  dict_get state_codes (lower s) = Some code ->
  resolve (VStr s) = Ok code /\
  (code = VStr "us_ca" \/ code = VStr "us_il") /\
  exists rq later,
    sent (snd (find_company_controllers rt self company_name (VStr s) w))
    = (sent w ++ rq :: later)%list /\
    req_url rq = base_url self ++ "/companies/search" /\
    dict_get (req_params rq) "q" = Some company_name /\
    dict_get (req_params rq) "jurisdiction_code" = Some code.
Proof.
  intros H.
  assert (Hcode : resolve (VStr s) = Ok code).
  { rewrite resolve_str. unfold field_of. rewrite H. reflexivity. }
  pose proof (state_codes_values _ _ H) as Hvalues.
  split; [exact Hcode|]. split; [exact Hvalues|].
  destruct (find_first_request rt self company_name (VStr s) code w Hcode) as (later & Hsent).
  exists (search_request self company_name code), later.
  split; [exact Hsent|]. split; [reflexivity|].
  assert (Ht : truthy code = true) by (destruct Hvalues as [-> | ->]; reflexivity).
  unfold search_request, request_of, search_params. cbn [req_params]. rewrite Ht.
  destruct (truthy (api_token self)).
  - rewrite !dict_get_set_other by discriminate.
    split; [reflexivity | apply dict_get_set_same].
  - split; [rewrite dict_get_set_other by discriminate; reflexivity | apply dict_get_set_same].
Qed.

Lemma known_hint_filters_witness :
  dict_get state_codes (lower "Illinois") = Some (VStr "us_il") /\
  resolve (VStr "Illinois") = Ok (VStr "us_il") /\
  exists rq later,
    sent (snd (find_company_controllers registry_down demo_agent (VStr "CTJ ESTATE LLC")
                 (VStr "Illinois") fresh_world))
    = (sent fresh_world ++ rq :: later)%list /\
    req_url rq = base_url demo_agent ++ "/companies/search" /\
    dict_get (req_params rq) "q" = Some (VStr "CTJ ESTATE LLC") /\
    dict_get (req_params rq) "jurisdiction_code" = Some (VStr "us_il").
Proof.
  split; [reflexivity|].
  destruct (known_hint_filters registry_down demo_agent (VStr "CTJ ESTATE LLC") "Illinois"
              (VStr "us_il") fresh_world) as (Hcode & _ & Hrq); [reflexivity|].
  split; [exact Hcode | exact Hrq].
Defined.

(** ** The shape of a lookup result *)

(** X13. What a lookup returns is always a dict of exactly three items, in
    this order: [status], one of "not_found", "success" and
    "partial_results"; [message], a str; [results], a list, which is empty
    unless the status is "success". *)
Theorem lookup_result_shape rt self company_name hint w r w' :
  find_company_controllers rt self company_name hint w = (Ok r, w') ->
  exists status message results,
    r = VDict [("status", VStr status); ("message", VStr message); ("results", VList results)] /\
    (status = "not_found" \/ status = "success" \/ status = "partial_results") /\
    (status <> "success" -> results = []) /\
    (status = "success" -> results <> []).
Proof.
  intros H. apply find_company_controllers_inv in H.
  destruct H as (code & companies & w1 & _ & _ & [(_ & -> & _) | (_ & results & _ & ->)]).
  - eexists; eexists; eexists. split; [reflexivity|].
    split; [left; reflexivity|]. split; [reflexivity | discriminate].
  - unfold found_result. destruct results as [|entry results];
      eexists; eexists; eexists; (split; [reflexivity|]).
    + split; [right; right; reflexivity|]. split; [reflexivity | discriminate].
    + split; [right; left; reflexivity|]. split; [congruence | discriminate].
Qed.

Lemma lookup_result_shape_witness :
  find_company_controllers (registry_without_officers anonymous_hits) demo_agent
    (VStr "ACME") VNone fresh_world = anonymous_run /\
  exists status message results,
    returned anonymous_run
    = VDict [("status", VStr status); ("message", VStr message); ("results", VList results)] /\
    (status = "not_found" \/ status = "success" \/ status = "partial_results") /\
    (status <> "success" -> results = []) /\
    (status = "success" -> results <> []).
Proof.
  split; [vm_compute; reflexivity|].
  apply (lookup_result_shape (registry_without_officers anonymous_hits) demo_agent
           (VStr "ACME") VNone fresh_world (returned anonymous_run) (snd anonymous_run)).
  vm_compute; reflexivity.
Defined.

(** ** Constructing the agent *)

(** X14. [__init__] never fails and sends nothing.  The agent's token is
    the argument when that is truthy and the environment's otherwise, and
    the warning is printed exactly when neither is truthy.  An agent built
    with a truthy token argument sends it as [api_token] with every
    request; an agent built without any token sends the caller's parameters
    unchanged. *)
Theorem agent_token_choice token env_token w :
  exists self w',
    __init__ token env_token w = (Ok self, w') /\
    sent w' = sent w /\
    stdout w'
    = (stdout w ++ (if truthy token || truthy env_token then []
                    else ["Warning: No API token provided. Some functions may be limited."]))%list /\
    base_url self = "https://api.opencorporates.com/v0.4" /\
    api_token self = (if truthy token then token else env_token) /\
    (truthy token = true ->
     forall endpoint params,
       dict_get (req_params (request_of self endpoint params)) "api_token" = Some token) /\
    (truthy token = false -> truthy env_token = false ->
     forall endpoint params,
       req_params (request_of self endpoint params)
       = match params with Some p => p | None => [] end).
Proof.
  unfold __init__, bind, print, ret.
  destruct (truthy token) eqn:Et; cbn [orb].
  - rewrite Et. eexists; eexists. split; [reflexivity|]. cbn [api_token base_url].
    split; [reflexivity|]. split; [symmetry; apply app_nil_r|].
    split; [reflexivity|]. split; [reflexivity|]. split; [|discriminate].
    intros _ endpoint params. unfold request_of. cbn [req_params api_token].
    rewrite Et. apply dict_get_set_same.
  - destruct (truthy env_token) eqn:Ee; eexists; eexists; (split; [reflexivity|]);
      cbn [api_token base_url sent stdout];
      (split; [reflexivity|]); (split; [try reflexivity; symmetry; apply app_nil_r|]);
      (split; [reflexivity|]); (split; [reflexivity|]); (split; [discriminate|]).
    + discriminate.
    + intros _ _ endpoint params. unfold request_of. cbn [req_params api_token].
      rewrite Ee. reflexivity.
Qed.

(** ** GET /api/company_details *)

Lemma get_company_details_trace rt self j n w :
  sent (snd (get_company_details rt self j n w))
  = (sent w ++ [request_of self (details_endpoint rt j n) None])%list.
Proof. rewrite get_company_details_eq. apply lookup_sent. Qed.

(** X15. GET /api/company_details replies 400 with [{error: "Jurisdiction
    and company number are required"}], and sends nothing to the registry,
    when either query parameter is missing or empty. *)
Theorem details_endpoint_validates rt agent args w :
  truthy (Webapp.args_get args "jurisdiction") = false \/
  truthy (Webapp.args_get args "company_number") = false ->
  Webapp.get_company_details rt agent args w
  = (Ok (mkReply (VDict [("error", VStr "Jurisdiction and company number are required")]) 400),
     w).
Proof.
  intros H. unfold Webapp.get_company_details.
  destruct H as [-> | ->]; [|rewrite orb_true_r]; reflexivity.
Qed.

Lemma details_endpoint_validates_witness :
  Webapp.args_get [("jurisdiction", "us_ca"); ("company_number", "")] "company_number" = VStr "" /\
  Webapp.args_get [("jurisdiction", "us_ca")] "company_number" = VNone /\
  Webapp.get_company_details details_registry demo_agent
    [("jurisdiction", "us_ca"); ("company_number", "")] fresh_world
  = (Ok (mkReply (VDict [("error", VStr "Jurisdiction and company number are required")]) 400),
     fresh_world) /\
  Webapp.get_company_details details_registry demo_agent [("jurisdiction", "us_ca")] fresh_world
  = (Ok (mkReply (VDict [("error", VStr "Jurisdiction and company number are required")]) 400),
     fresh_world).
Proof.
  split; [reflexivity|]. split; [reflexivity|]. split.
  - apply (details_endpoint_validates details_registry demo_agent
             [("jurisdiction", "us_ca"); ("company_number", "")] fresh_world).
    right. reflexivity.
  - apply (details_endpoint_validates details_registry demo_agent
             [("jurisdiction", "us_ca")] fresh_world).
    right. reflexivity.
Defined.

(** X16. With both query parameters given and not empty, every reply of GET
    /api/company_details is a 200 whose body is [{company, officers}], after
    exactly two requests: the company's details, then its officers.  When
    both requests fail the reply is still a 200, with an empty company and
    no officers. *)
Theorem details_endpoint_replies rt agent args j n w :
  Webapp.args_get args "jurisdiction" = VStr j ->
  Webapp.args_get args "company_number" = VStr n ->
  j <> "" -> n <> "" ->
  (forall reply w',
     Webapp.get_company_details rt agent args w = (Ok reply, w') ->
     reply_status reply = 200%Z /\
     (exists company officers,
        reply_body reply = VDict [("company", company); ("officers", officers)]) /\
     sent w'
     = (sent w ++ [request_of agent ("companies/" ++ j ++ "/" ++ n) None;
                   request_of agent ("companies/" ++ j ++ "/" ++ n ++ "/officers") None])%list) /\
  (transport_failed
     (upstream rt (length (sent w)) (request_of agent ("companies/" ++ j ++ "/" ++ n) None))
   = true ->
   transport_failed
     (upstream rt (S (length (sent w)))
        (request_of agent ("companies/" ++ j ++ "/" ++ n ++ "/officers") None))
   = true ->
   exists w',
     Webapp.get_company_details rt agent args w
     = (Ok (mkReply (VDict [("company", VDict []); ("officers", VList [])]) 200), w')).
Proof.
  intros Hj Hn Hje Hne.
  assert (Htj : truthy (VStr j) = true).
  { cbn. destruct (j =? "") eqn:E; [apply String.eqb_eq in E; congruence | reflexivity]. }
  assert (Htn : truthy (VStr n) = true).
  { cbn. destruct (n =? "") eqn:E; [apply String.eqb_eq in E; congruence | reflexivity]. }
  unfold Webapp.get_company_details. rewrite Hj, Hn, Htj, Htn. cbn [negb orb].
  split.
  - intros reply w' H.
    apply bind_Ok_inv in H. destruct H as (company & w1 & Hd & H).
    apply bind_Ok_inv in H. destruct H as (officers & w2 & Ho & H).
    inversion H; subst reply w'. cbn [reply_status reply_body].
    split; [reflexivity|]. split; [eauto|].
    pose proof (get_company_details_trace rt agent (VStr j) (VStr n) w) as T1.
    rewrite Hd in T1. cbn [snd] in T1.
    pose proof (get_company_officers_trace rt agent (VStr j) (VStr n) w1) as T2.
    rewrite Ho in T2. cbn [snd] in T2.
    rewrite T2, T1, <- app_assoc. reflexivity.
  - intros F1 F2.
    destruct (lookup_failed rt agent (details_endpoint rt (VStr j) (VStr n)) None "company"
                (VDict []) w F1) as (out1 & H1).
    rewrite get_company_details_eq, (bind_Ok _ _ _ _ _ H1).
    set (w1 := mkWorld _ _) in *.
    assert (F2' : transport_failed
                    (upstream rt (length (sent w1))
                       (request_of agent (officers_endpoint rt (VStr j) (VStr n)) None)) = true).
    { subst w1. cbn [sent]. rewrite length_app. cbn [length]. rewrite Nat.add_1_r. exact F2. }
    destruct (lookup_failed rt agent (officers_endpoint rt (VStr j) (VStr n)) None "officers"
                (VList []) w1 F2') as (out2 & H2).
    rewrite get_company_officers_eq, (bind_Ok _ _ _ _ _ H2).
    eexists. reflexivity.
Qed.

Lemma details_endpoint_replies_witness :
  Webapp.get_company_details details_registry demo_agent
    [("jurisdiction", "us_ca"); ("company_number", "C1")] fresh_world
  = (Ok (mkReply (VDict [("company", sample_company); ("officers", sample_officers)]) 200),
     mkWorld [request_of demo_agent "companies/us_ca/C1" None;
              request_of demo_agent "companies/us_ca/C1/officers" None] []) /\
  exists w',
    Webapp.get_company_details registry_down demo_agent
      [("jurisdiction", "us_ca"); ("company_number", "C1")] fresh_world
    = (Ok (mkReply (VDict [("company", VDict []); ("officers", VList [])]) 200), w').
Proof.
  split; [reflexivity|].
  destruct (details_endpoint_replies registry_down demo_agent
              [("jurisdiction", "us_ca"); ("company_number", "C1")] "us_ca" "C1" fresh_world)
    as [_ Hfail]; [reflexivity | reflexivity | discriminate | discriminate |].
  apply Hfail; reflexivity.
Defined.

(** ** Hits with empty fields *)

(** X17. A hit whose jurisdiction code or company number is present but
    falsy (an empty string, 0, [false], an empty list or object) is skipped
    like one without the field: no entry, no request, nothing printed. *)
Theorem empty_fields_are_skipped rt self company_data company results w :
  candidate_company company_data = Some company ->
  truthy (field_of company "jurisdiction_code") = false \/
  truthy (field_of company "company_number") = false ->
  process_candidate rt self company_data results w = (Ok results, w).
Proof.
  intros Hc Hfalsy. apply (process_candidate_skips _ _ _ _ _ _ Hc).
  unfold identified. destruct Hfalsy as [-> | ->]; [reflexivity | apply andb_false_r].
Qed.

Lemma empty_fields_are_skipped_witness :
  candidate_company (hit (VStr "ACME INC") (VStr "us_ca") (VStr ""))
  = Some [("name", VStr "ACME INC"); ("jurisdiction_code", VStr "us_ca");
          ("company_number", VStr "")] /\
  process_candidate (registry_with_officers five_hits) demo_agent
    (hit (VStr "ACME INC") (VStr "us_ca") (VStr "")) [] searched_world
  = (Ok [], searched_world).
Proof.
  split; [reflexivity|].
  apply (empty_fields_are_skipped (registry_with_officers five_hits) demo_agent
           (hit (VStr "ACME INC") (VStr "us_ca") (VStr ""))
           [("name", VStr "ACME INC"); ("jurisdiction_code", VStr "us_ca");
            ("company_number", VStr "")] [] searched_world);
    [reflexivity | right; reflexivity].
Defined.

(** ** POST /api/search, continued *)

(** The handler reads two fields of the body and nothing else. *)
Lemma search_company_fields rt agent d w :
  search_company rt agent (VDict d) w
  = if negb (truthy (field_of d "company_name"))
    then (Ok (mkReply (VDict [("error", VStr "Company name is required")]) 400), w)
    else (result <- find_company_controllers rt agent (field_of d "company_name")
                      (field_of d "jurisdiction") ;;
          ret (mkReply result 200)) w.
Proof.
  unfold search_company, py_get. rewrite !bind_ret.
  fold (field_of d "company_name"). fold (field_of d "jurisdiction").
  destruct (truthy (field_of d "company_name")); reflexivity.
Qed.

(** X18. POST /api/search raises an [AttributeError], before anything is
    sent to the registry, when the body is not a JSON object, and when the
    body has a company name and a [jurisdiction] that is truthy and not a
    str. *)
Theorem search_endpoint_raises rt agent data w :
  ((forall d, data <> VDict d) ->
   exists msg, search_company rt agent data w = (Raise (AttributeError msg), w)) /\
  (forall d,
     data = VDict d ->
     truthy (field_of d "company_name") = true ->
     truthy (field_of d "jurisdiction") = true ->
     (forall s, field_of d "jurisdiction" <> VStr s) ->
     exists msg, search_company rt agent data w = (Raise (AttributeError msg), w)).
Proof.
  split.
  - intros Hd. destruct data as [| b | z | f | s | l | d]; try (eexists; reflexivity).
    exfalso. apply (Hd d). reflexivity.
  - intros d -> Hname Hj Hs. rewrite search_company_fields, Hname. cbn [negb].
    destruct (non_string_hint_raises rt agent (field_of d "company_name")
                (field_of d "jurisdiction") w Hj Hs) as (msg & H).
    exists msg. rewrite (bind_Raise _ _ _ _ _ H). reflexivity.
Qed.

Lemma search_endpoint_raises_witness :
  (exists msg,
     search_company empty_registry demo_agent (VList []) fresh_world
     = (Raise (AttributeError msg), fresh_world)) /\
  (exists msg,
     search_company empty_registry demo_agent
       (VDict [("company_name", VStr "X"); ("jurisdiction", VList [VStr "CA"])]) fresh_world
     = (Raise (AttributeError msg), fresh_world)).
Proof.
  split.
  - apply (proj1 (search_endpoint_raises empty_registry demo_agent (VList []) fresh_world)).
    intros d. discriminate.
  - apply (proj2 (search_endpoint_raises empty_registry demo_agent
                    (VDict [("company_name", VStr "X"); ("jurisdiction", VList [VStr "CA"])])
                    fresh_world)
             [("company_name", VStr "X"); ("jurisdiction", VList [VStr "CA"])]);
      try reflexivity.
    intros s. discriminate.
Defined.

(** X19. For POST /api/search, a [jurisdiction] the table does not know,
    the empty string of an empty form field included, is the same as no
    [jurisdiction] at all: two bodies with the same company name, one with
    such a jurisdiction and one with none, get the same reply after the same
    requests. *)
Theorem unknown_jurisdiction_is_no_filter rt agent d d' s w :
  field_of d' "company_name" = field_of d "company_name" ->
  field_of d "jurisdiction" = VStr s ->
  field_of d' "jurisdiction" = VNone ->
  dict_get state_codes (lower s) = None ->
  search_company rt agent (VDict d) w = search_company rt agent (VDict d') w.
Proof.
  intros Hname Hj Hj' Hs. rewrite !search_company_fields, Hname, Hj, Hj'.
  destruct (truthy (field_of d "company_name")); cbn [negb]; [|reflexivity].
  unfold bind. rewrite (find_unknown_hint _ _ _ _ _ Hs). reflexivity.
Qed.

Lemma unknown_jurisdiction_is_no_filter_witness :
  search_company (registry_with_officers complete_hits) demo_agent
    (VDict [("company_name", VStr "ACME"); ("jurisdiction", VStr "")]) fresh_world
  = search_company (registry_with_officers complete_hits) demo_agent
      (VDict [("company_name", VStr "ACME")]) fresh_world.
Proof.
  apply (unknown_jurisdiction_is_no_filter (registry_with_officers complete_hits) demo_agent
           [("company_name", VStr "ACME"); ("jurisdiction", VStr "")]
           [("company_name", VStr "ACME")] ""); reflexivity.
Defined.

(** * The status of a lookup *)

(** C1. A lookup returns status [not_found] exactly when the search step
    returned no hit; [success] exactly when [results] is not empty, which
    is exactly when one of the first three hits is resolved: it has a
    company record with a jurisdiction code and a company number, and the
    lookup of its officers returns; and [partial_results] exactly when
    there were hits and none of the first three is resolved.  A search
    request that fails counts as no hit, and the lookup returns whenever
    the search step returns a list. *)
Theorem status_classification rt self company_name hint w :
  (forall r w',
     find_company_controllers rt self company_name hint w = (Ok r, w') ->
     exists code companies w1 results,
       resolve hint = Ok code /\
       search_companies rt self company_name code w = (Ok companies, w1) /\
       results_of r = Some (VList results) /\
       (status_of r = Some (VStr "not_found") <-> candidates_of companies = []) /\
       (status_of r = Some (VStr "success") <-> results <> []) /\
       (status_of r = Some (VStr "success") <->
        exists k,
          resolved rt self (S (length (sent w))) (firstn 3 (candidates_of companies)) k) /\
       (status_of r = Some (VStr "partial_results") <->
        candidates_of companies <> [] /\
        ~ exists k,
            resolved rt self (S (length (sent w))) (firstn 3 (candidates_of companies)) k)) /\
  (forall code,
     resolve hint = Ok code ->
     transport_failed
       (upstream rt (length (sent w))
          (request_of self "companies/search" (Some (search_params company_name code)))) = true ->
     exists w',
       find_company_controllers rt self company_name hint w
       = (Ok (not_found_result rt company_name), w')) /\
  (forall code hits w1,
     resolve hint = Ok code ->
     search_companies rt self company_name code w = (Ok (VList hits), w1) ->
     exists r w', find_company_controllers rt self company_name hint w = (Ok r, w')).
Proof.
  split; [|split].
  - intros r w' H. apply find_company_controllers_results in H.
    destruct H as (code & companies & w1 & Hcode & Hsearch & Hnone & Hsome).
    exists code, companies, w1.
    destruct (candidates_of companies) as [|c cs] eqn:Ec.
    + rewrite (Hnone eq_refl). exists []. cbn.
      split; [assumption|]. split; [assumption|]. split; [reflexivity|].
      split; [split; reflexivity|].
      split; [split; [discriminate | congruence]|].
      split; [split; [discriminate|]|split; [discriminate|]].
      * intros (k & c & company & o & Hk & _). destruct k; discriminate Hk.
      * intros [Hne _]. congruence.
    + assert (Hne : c :: cs <> []) by discriminate.
      rewrite (Hsome Hne).
      pose proof (expected_results_resolved rt self (firstn 3 (c :: cs)) (S (length (sent w))))
        as Hy.
      exists (expected_results rt self (S (length (sent w))) (firstn 3 (c :: cs))).
      split; [assumption|]. split; [assumption|]. split; [reflexivity|].
      unfold found_result, status_of. cbn [dict_get String.eqb Ascii.eqb Bool.eqb].
      destruct (expected_results rt self (S (length (sent w))) (firstn 3 (c :: cs)))
        as [|entry results].
      * split; [split; [discriminate | congruence]|].
        split; [split; [discriminate | congruence]|].
        split; [split; [discriminate|]|split].
        -- intros Hex. apply Hy in Hex. congruence.
        -- intros _. split; [assumption|]. intros Hex. apply Hy in Hex. congruence.
        -- reflexivity.
      * split; [split; [discriminate | congruence]|].
        split; [split; [discriminate | reflexivity]|].
        split; [split; [|reflexivity]|split; [discriminate|]].
        -- intros _. apply Hy. discriminate.
        -- intros [_ Hno]. exfalso. apply Hno, Hy. discriminate.
  - intros code Hcode Hfail.
    unfold find_company_controllers.
    rewrite (bind_Ok _ _ _ _ _ (eq_trans (jurisdiction_code_of_resolve hint w)
                                         (f_equal (fun o => (o, w)) Hcode))).
    rewrite search_companies_eq.
    destruct (lookup_failed rt self "companies/search"
                (Some (search_params company_name code)) "companies" (VList []) w Hfail)
      as (out & H).
    rewrite (bind_Ok _ _ _ _ _ H). eexists. reflexivity.
  - intros code hits w1. apply find_company_controllers_returns.
Qed.

Lemma status_classification_witness :
  (find_company_controllers (registry_without_officers five_hits) demo_agent
     (VStr "ACME") (VStr "CA") fresh_world = mixed_run /\
   status_of (returned mixed_run) = Some (VStr "success") /\
   exists k,
     resolved (registry_without_officers five_hits) demo_agent 1 (firstn 3 five_hits) k) /\
  (find_company_controllers (registry_with_officers late_hits) demo_agent
     (VStr "ACME") VNone fresh_world = late_run /\
   status_of (returned late_run) = Some (VStr "partial_results") /\
   ~ exists k,
       resolved (registry_with_officers late_hits) demo_agent 1 (firstn 3 late_hits) k).
Proof.
  split.
  - split; [vm_compute; reflexivity|]. split; [reflexivity|].
    destruct (proj1 (status_classification (registry_without_officers five_hits) demo_agent
                       (VStr "ACME") (VStr "CA") fresh_world)
                (returned mixed_run) (snd mixed_run))
      as (code & companies & w1 & results & Hcode & Hsearch & _ & _ & _ & Hsuccess & _);
      [vm_compute; reflexivity|].
    vm_compute in Hcode. inversion Hcode; subst code.
    assert (Hs : search_companies (registry_without_officers five_hits) demo_agent
                   (VStr "ACME") (VStr "us_ca") fresh_world
                 = (Ok (VList five_hits), searched_world)) by (vm_compute; reflexivity).
    rewrite Hs in Hsearch. inversion Hsearch; subst companies w1.
    apply Hsuccess. reflexivity.
  - split; [vm_compute; reflexivity|]. split; [reflexivity|].
    destruct (proj1 (status_classification (registry_with_officers late_hits) demo_agent
                       (VStr "ACME") VNone fresh_world)
                (returned late_run) (snd late_run))
      as (code & companies & w1 & results & Hcode & Hsearch & _ & _ & _ & _ & Hpartial);
      [vm_compute; reflexivity|].
    assert (Hs : fst (search_companies (registry_with_officers late_hits) demo_agent
                        (VStr "ACME") VNone fresh_world)
                 = Ok (VList late_hits)) by (vm_compute; reflexivity).
    vm_compute in Hcode. inversion Hcode; subst code.
    rewrite Hsearch in Hs. cbn [fst] in Hs. inversion Hs; subst companies.
    apply Hpartial. reflexivity.
Defined.

(** * The entries of a lookup, from the hits and the answers *)

(** X10. The [results] of a lookup are determined by the first three hits
    and the registry's answers: in the order of the hits, one entry for
    each hit that has a company record with both fields and whose officers
    lookup returns, built from that record (name, jurisdiction code,
    company number, incorporation date, type and status copied as they
    are) with, for officers, what the lookup made of the answer to that
    hit's own request.  No hit gives two entries and no entry comes from a
    hit past the third. *)
Theorem results_follow_hits rt self company_name hint w r w' :
  find_company_controllers rt self company_name hint w = (Ok r, w') ->
  exists code companies w1 results picked,
    resolve hint = Ok code /\
    search_companies rt self company_name code w = (Ok companies, w1) /\
    results_of r = Some (VList results) /\
    results
    = expected_results rt self (S (length (sent w))) (firstn 3 (candidates_of companies)) /\
    subseq picked (firstn 3 (candidates_of companies)) /\
    Forall2 entry_from picked results.
Proof.
  intros H. pose proof H as H'. apply find_company_controllers_results in H'.
  destruct H' as (code & companies & w1 & Hcode & Hsearch & Hnone & Hsome).
  apply find_company_controllers_inv in H.
  destruct H as (code' & companies' & w1' & Hcode' & Hsearch' & H).
  rewrite Hcode in Hcode'. inversion Hcode'; subst code'.
  rewrite Hsearch in Hsearch'. inversion Hsearch'; subst companies' w1'.
  exists code, companies, w1.
  destruct H as [(Hempty & -> & _) | (Hne & results & Hloop & Hr)].
  - exists [], []. rewrite Hempty. cbn.
    split; [assumption|]. split; [assumption|]. split; [reflexivity|].
    split; [reflexivity|]. split; constructor.
  - destruct (for_each_candidate_subseq _ _ _ _ _ _ Hloop) as (picked & Hsub & Hall).
    exists results, picked.
    split; [assumption|]. split; [assumption|].
    split; [rewrite Hr; reflexivity|].
    split; [|split; assumption].
    rewrite (Hsome Hne) in Hr. unfold found_result in Hr. inversion Hr. reflexivity.
Qed.

Lemma results_follow_hits_witness :
  find_company_controllers (registry_with_officers complete_hits) demo_agent
    (VStr "ACME") VNone fresh_world
  = (Ok (found_result (registry_with_officers complete_hits) (VStr "ACME")
           [entry_of [("name", VStr "ACME INC"); ("jurisdiction_code", VStr "us_ca");
                      ("company_number", VStr "C1")] sample_officers;
            entry_of [("name", VStr "ACME LLC"); ("jurisdiction_code", VStr "us_ca");
                      ("company_number", VStr "C2")] sample_officers;
            entry_of [("name", VStr "ACME CO"); ("jurisdiction_code", VStr "us_il");
                      ("company_number", VStr "C3")] sample_officers]),
     snd (find_company_controllers (registry_with_officers complete_hits) demo_agent
            (VStr "ACME") VNone fresh_world)) /\
  exists results,
    results_of (returned (find_company_controllers (registry_with_officers complete_hits)
                            demo_agent (VStr "ACME") VNone fresh_world))
    = Some (VList results) /\
    results = expected_results (registry_with_officers complete_hits) demo_agent 1
                (firstn 3 complete_hits).
Proof.
  split; [vm_compute; reflexivity|].
  destruct (results_follow_hits (registry_with_officers complete_hits) demo_agent
              (VStr "ACME") VNone fresh_world
              (returned (find_company_controllers (registry_with_officers complete_hits)
                           demo_agent (VStr "ACME") VNone fresh_world))
              (snd (find_company_controllers (registry_with_officers complete_hits)
                      demo_agent (VStr "ACME") VNone fresh_world)))
    as (code & companies & w1 & results & picked & Hcode & Hsearch & Hres & Hexp & _);
    [vm_compute; reflexivity|].
  assert (Hs : fst (search_companies (registry_with_officers complete_hits) demo_agent
                      (VStr "ACME") VNone fresh_world)
               = Ok (VList complete_hits)) by (vm_compute; reflexivity).
  vm_compute in Hcode. inversion Hcode; subst code.
  rewrite Hsearch in Hs. cbn [fst] in Hs. inversion Hs; subst companies.
  exists results. split; [exact Hres | exact Hexp].
Defined.

(** * A registry that answers with objects *)

Lemma read_answer_of_object rt field empty n rq :
  answers_with_objects rt ->
  exists x,
    read_answer field empty (upstream rt n rq) = Ok x /\
    (x = empty \/
     exists r d,
       upstream rt n rq = Responded r /\ json_body r = inl (VDict d) /\
       results_path d field = Some x).
Proof.
  intros [Hesc Hobj]. specialize (Hesc n rq). specialize (Hobj n rq).
  unfold read_answer, escapes in *.
  destruct (upstream rt n rq) as [msg resp | e | r]; [eauto | discriminate Hesc |].
  destruct (http_error r); [eauto|].
  destruct (json_body r) as [v|[msg|e]] eqn:Ej; [|eauto | discriminate Hesc].
  destruct (Hobj r v eq_refl Ej) as (d & -> & _). cbn [read_body].
  destruct (dict_mem d "error"); [eauto|].
  destruct (results_path d field) as [x|] eqn:Ep; [|eauto].
  exists x. split; [reflexivity|]. right. exists r, d. auto.
Qed.

Lemma expected_results_of_object rt self hits : forall n,
  answers_with_objects rt ->
  Forall2 entry_from (filter wants_officers hits) (expected_results rt self n hits).
Proof.
  induction hits as [|c rest IH]; intros n Hobj; [constructor|].
  cbn [filter expected_results]. unfold wants_officers at 1.
  destruct (candidate_company c) as [company|] eqn:E; [|apply IH, Hobj].
  destruct (identified company) eqn:Ei; [|apply IH, Hobj].
  unfold officers_for.
  destruct (read_answer_of_object rt "officers" (VList []) n (officers_request rt self c) Hobj)
    as (o & -> & _).
  constructor; [|apply IH, Hobj]. exists company, o. auto.
Qed.

(** X11. When the HTTP library raises nothing but a [RequestException], and
    every body the registry sends that decodes is a JSON object whose
    [companies], if it lists any, are a list, a lookup with a hint that is
    a str or [None] never raises, and [results] holds exactly one entry for
    each of the first three hits that has a company record with both
    fields, in the order of the hits, whether or not its officers could be
    fetched. *)
Theorem lookup_of_well_formed_registry rt self company_name hint code w :
  answers_with_objects rt ->
  resolve hint = Ok code ->
  exists hits w1 r w' results,
    search_companies rt self company_name code w = (Ok (VList hits), w1) /\
    find_company_controllers rt self company_name hint w = (Ok r, w') /\
    results_of r = Some (VList results) /\
    results = expected_results rt self (S (length (sent w))) (firstn 3 hits) /\
    Forall2 entry_from (filter wants_officers (firstn 3 hits)) results.
Proof.
  intros Hobj Hcode.
  assert (Hsearch : exists hits w1,
             search_companies rt self company_name code w = (Ok (VList hits), w1)).
  { pose proof (lookup_reads rt self "companies/search"
                  (Some (search_params company_name code)) "companies" (VList []) w) as Hr.
    rewrite <- search_companies_eq in Hr.
    destruct (read_answer_of_object rt "companies" (VList []) (length (sent w))
                (request_of self "companies/search" (Some (search_params company_name code)))
                Hobj) as (x & Hx & Hshape).
    rewrite Hx in Hr.
    destruct (search_companies rt self company_name code w) as [o w1]. cbn [fst] in Hr.
    subst o. destruct Hshape as [-> | (r & d & Hup & Hj & Hp)].
    - exists [], w1. reflexivity.
    - destruct Hobj as [_ Hobj]. destruct (Hobj _ _ _ _ Hup Hj) as (d' & Hd & Hlist).
      inversion Hd; subst d'. destruct (Hlist _ Hp) as (hits & ->).
      exists hits, w1. reflexivity. }
  destruct Hsearch as (hits & w1 & Hsearch). exists hits, w1.
  destruct (find_company_controllers_returns _ _ _ _ _ _ _ _ Hcode Hsearch) as (r & w' & Hrun).
  exists r, w'.
  destruct (find_company_controllers_results _ _ _ _ _ _ _ Hrun)
    as (code' & companies & w1' & Hcode' & Hsearch' & Hnone & Hsome).
  rewrite Hcode in Hcode'. inversion Hcode'; subst code'.
  rewrite Hsearch in Hsearch'. inversion Hsearch'; subst companies w1'.
  cbn [candidates_of] in *.
  exists (expected_results rt self (S (length (sent w))) (firstn 3 hits)).
  split; [exact Hsearch|]. split; [exact Hrun|].
  split; [|split; [reflexivity | apply expected_results_of_object, Hobj]].
  destruct hits as [|c cs].
  - rewrite (Hnone eq_refl). reflexivity.
  - rewrite Hsome by discriminate. reflexivity.
Qed.

Lemma registry_with_officers_answers_with_objects hits :
  answers_with_objects (registry_with_officers hits).
Proof.
  split.
  - intros n rq. destruct n; reflexivity.
  - intros n rq r v Hr Hj. destruct n as [|n]; cbn in Hr; inversion Hr; subst r;
      cbn in Hj; inversion Hj; subst v; eexists; (split; [reflexivity|]);
      intros companies Hp; cbv in Hp; inversion Hp.
    exists hits. reflexivity.
Qed.

Lemma lookup_of_well_formed_registry_witness :
  answers_with_objects (registry_with_officers complete_hits) /\
  resolve (VStr "CA") = Ok (VStr "us_ca") /\
  exists hits w1 r w' results,
    search_companies (registry_with_officers complete_hits) demo_agent (VStr "ACME")
      (VStr "us_ca") fresh_world = (Ok (VList hits), w1) /\
    find_company_controllers (registry_with_officers complete_hits) demo_agent (VStr "ACME")
      (VStr "CA") fresh_world = (Ok r, w') /\
    results_of r = Some (VList results) /\
    results = expected_results (registry_with_officers complete_hits) demo_agent 1
                (firstn 3 hits) /\
    Forall2 entry_from (filter wants_officers (firstn 3 hits)) results.
Proof.
  split; [apply registry_with_officers_answers_with_objects|]. split; [reflexivity|].
  apply (lookup_of_well_formed_registry (registry_with_officers complete_hits) demo_agent
           (VStr "ACME") (VStr "CA") (VStr "us_ca") fresh_world).
  - apply registry_with_officers_answers_with_objects.
  - reflexivity.
Defined.

(** * POST /api/search does not always reply *)

(** C9 as stated fails: with a company name in the body, the handler
    replies 200 only if the lookup returns.  Here the registry answers the
    search with the bare number 5; [search_companies] raises a [TypeError],
    nothing catches it, and there is no reply. *)
Lemma search_endpoint_raises_on_bare_number :
  truthy (field_of [("company_name", VStr "X")] "company_name") = true /\
  search_company registry_of_numbers demo_agent (VDict [("company_name", VStr "X")])
    fresh_world
  = (Raise (TypeError "argument of type 'int' is not iterable"),
     mkWorld [search_request demo_agent (VStr "X") VNone] []).
Proof. split; reflexivity. Qed.
